(** * Submission normalizer: a shallow embedding of [fix_submission.py]
      and [fix_code_url.py]

    The two scripts read a YAML/JSON submission record, reshape it as a
    Python dictionary and write it back.  This development embeds

    - the string cleanup of instruction entries ([str.strip], the
      anchored [re.sub] and [str.rstrip]),
    - the record transformation of [fix_submission_file] on Python values,
    - the filename validator,
    - the file-level drivers with their [try]/[except] blocks, over an
      explicit world made of a file store and the printed messages,

    and proves the properties of the specification about them.

    Modelling conventions.
    - A Python [str] is a [string]; a character is a code point below 256.
      On that range [str.isspace] and the [\s] class of [re] agree, and
      [\d] is exactly [0-9].
    - Python values are the ones [yaml.safe_load] and [json.load] build
      from scalars and containers: [None], booleans, integers, strings,
      lists and dictionaries.  Floats, dates, byte strings and sets are
      left out.
    - A dictionary is an association list in insertion order (the order
      [yaml.dump(..., sort_keys=False)] writes); lookup takes the first
      binding of a key.
    - The YAML and JSON codecs are library code: they are parameters of
      the file-level part.
    - A path is the string [str] gives for it.  [pathlib] normalises the
      directories it is handed ([Posix.pure_path]); a [Path] is kept as
      its parent and its name, the last component, which holds no slash.
    - Directories are implicit in the file map.  Making one changes no
      file; it fails when a file stands in its way or when the operating
      system refuses, which is a parameter like the listing of a
      directory. *)

From Stdlib Require Import ZArith List Ascii String DecimalString DecimalPos.
From stdpp Require Import base gmap strings list.

(* Let [simpl] compute the concatenation of string literals. *)
Local Arguments String.append : simpl nomatch.

(** ** Character classes *)

Module Char.

Definition code (c : ascii) : N := N_of_ascii c.

(** [str.isspace] / [\s] on code points below 256: TAB..CR, FS..US,
    SPACE, NEL and NBSP. *)
Definition is_space (c : ascii) : bool :=
  let n := code c in
  ((9 <=? n) && (n <=? 13) || (28 <=? n) && (n <=? 32)
   || (n =? 133) || (n =? 160))%N.

(** [\d] on code points below 256. *)
Definition is_digit (c : ascii) : bool :=
  let n := code c in ((48 <=? n) && (n <=? 57))%N.

Definition is_dot (c : ascii) : bool := Ascii.eqb c ".".

(** The class [[a-zA-Z0-9_.-]] of [validate_filename]. *)
Definition is_allowed (c : ascii) : bool :=
  let n := code c in
  ((97 <=? n) && (n <=? 122) || (65 <=? n) && (n <=? 90)
   || (48 <=? n) && (n <=? 57)
   || (n =? 95) || (n =? 46) || (n =? 45))%N.

Definition newline : ascii := "010".

End Char.

(** ** Python string methods *)

Module Str.

Definition is_empty (s : string) : bool :=
  match s with EmptyString => true | String _ _ => false end.

Fixpoint all (p : ascii -> bool) (s : string) : bool :=
  match s with
  | EmptyString => true
  | String c s' => p c && all p s'
  end.

Fixpoint map (f : ascii -> ascii) (s : string) : string :=
  match s with
  | EmptyString => EmptyString
  | String c s' => String (f c) (map f s')
  end.

(** Drop the longest prefix of characters satisfying [p]. *)
Fixpoint lstrip_by (p : ascii -> bool) (s : string) : string :=
  match s with
  | EmptyString => EmptyString
  | String c s' => if p c then lstrip_by p s' else s
  end.

(** Drop the longest suffix of characters satisfying [p]. *)
Fixpoint rstrip_by (p : ascii -> bool) (s : string) : string :=
  match s with
  | EmptyString => EmptyString
  | String c s' =>
      let r := rstrip_by p s' in
      if is_empty r && p c then EmptyString else String c r
  end.

(** [s.strip()] *)
Definition strip (s : string) : string :=
  rstrip_by Char.is_space (lstrip_by Char.is_space s).

(** [s.rstrip('.')] *)
Definition rstrip_dots (s : string) : string := rstrip_by Char.is_dot s.

(** [s.startswith(prefix)] *)
Definition startswith (s pre : string) : bool := String.prefix pre s.

Fixpoint last (s : string) : option ascii :=
  match s with
  | EmptyString => None
  | String c s' => match last s' with None => Some c | Some x => Some x end
  end.

Definition head (s : string) : option ascii :=
  match s with
  | EmptyString => None
  | String c _ => Some c
  end.

End Str.

(** ** The instruction cleanup of [fix_submission_file] (lines 55-58) *)

(** [re.sub(r'^\s*\d+\.\s*', '', s)].  Without [re.MULTILINE] the anchor
    only matches at position 0, so at most one occurrence is replaced.
    The three repeated classes are pairwise disjoint from what follows
    them ([\s] from [\d], [\d] from the dot), so the greedy match is the
    only one: skip the spaces, read at least one digit, read the dot, skip
    the spaces.  When the pattern does not match the string is returned
    as it is. *)
Definition strip_numbering (s : string) : string :=
  let s1 := Str.lstrip_by Char.is_space s in
  let s2 := Str.lstrip_by Char.is_digit s1 in
  if Nat.eqb (String.length s2) (String.length s1) then s   (* no digit *)
  else
    match s2 with
    | String c s3 => if Char.is_dot c then Str.lstrip_by Char.is_space s3 else s
    | EmptyString => s
    end.

(** Lines 55 and 57: the value of [cleaned] tested on line 58. *)
Definition clean_text (inst : string) : string :=
  Str.rstrip_dots (strip_numbering (Str.strip inst)).

(** Lines 55-59: the entry appended for a string instruction, if any. *)
Definition clean_instruction (inst : string) : option string :=
  let cleaned := clean_text inst in
  if Str.is_empty cleaned then None else Some cleaned.

(** A text that begins with a character other than white space. *)
Definition starts_clean (text : string) : bool :=
  match Str.head text with
  | Some c => negb (Char.is_space c)
  | None => false
  end.

(** A text that ends with a character other than white space and the dot. *)
Definition ends_clean (text : string) : bool :=
  match Str.last text with
  | Some c => negb (Char.is_space c) && negb (Char.is_dot c)
  | None => false
  end.

(** A text that is empty or begins with a character other than white
    space: what [strip] and the [re.sub] return. *)
Definition clean_start (s : string) : Prop :=
  match Str.head s with
  | Some c => Char.is_space c = false
  | None => True
  end.

(** A text that does not end with white space. *)
Definition no_trailing_space (text : string) : bool :=
  match Str.last text with
  | Some c => negb (Char.is_space c)
  | None => true
  end.

(** A text on which [r'^\s*\d+\.\s*'] has no match: after the leading
    spaces there is no digit, or the digits are not followed by a dot. *)
Definition unnumbered (text : string) : bool :=
  let s1 := Str.lstrip_by Char.is_space text in
  let s2 := Str.lstrip_by Char.is_digit s1 in
  Nat.eqb (String.length s2) (String.length s1)
  || match Str.head s2 with Some c => negb (Char.is_dot c) | None => true end.

(** ** The filename validator (lines 85-97) *)

(** [os.path.basename] (POSIX): what follows the last slash. *)
Fixpoint basename (p : string) : string :=
  match p with
  | EmptyString => EmptyString
  | String c p' =>
      if Str.all (fun x => negb (Ascii.eqb x "/")) p'
      then (if Ascii.eqb c "/" then p' else p)
      else basename p'
  end.

(** [re.match(r'^[a-zA-Z0-9_.-]+$', b)].  The class is greedy and what
    must follow it is the end of the string, where [$] also matches just
    before a final newline. *)
Definition filename_re_match (b : string) : bool :=
  let rest := Str.lstrip_by Char.is_allowed b in
  negb (Nat.eqb (String.length rest) (String.length b))
  && (String.eqb rest "" || String.eqb rest (String Char.newline "")).

(** [re.sub(r'[^a-zA-Z0-9_.-]', '_', b)] *)
Definition sanitize_char (c : ascii) : ascii :=
  if Char.is_allowed c then c else "_"%char.

Definition validate_filename (filename : string) : bool * string :=
  let basename := basename filename in
  if filename_re_match basename then (true, basename)
  else
    let fixed_name := Str.map sanitize_char basename in
    (false, fixed_name).

(** ** Python values and exceptions *)

Inductive exn : Type :=
| AttributeError      (* a method looked up on a value that lacks it *)
| TypeError           (* iteration over a value that is not iterable *)
| OSError             (* a file that cannot be opened *)
| YAMLError           (* raised by the YAML codec *)
| ValueError.         (* raised by the JSON codec, decoding errors *)

Inductive result (A : Type) : Type :=
| Ok (a : A)
| Raise (e : exn).

Arguments Ok {A} a.
Arguments Raise {A} e.

#[global] Instance result_ret : MRet result := @Ok.
#[global] Instance result_bind : MBind result :=
  fun A B f m => match m with Ok a => f a | Raise e => Raise e end.

(** Dictionary keys are hashable scalars. *)
Inductive pykey : Type :=
| KNone
| KBool (b : bool)
| KInt (z : Z)
| KStr (s : string).

#[warnings="-register-all"] Inductive pyval : Type :=
| PNone
| PBool (b : bool)
| PInt (z : Z)
| PStr (s : string)
| PList (l : list pyval)
| PDict (d : list (pykey * pyval)).

Abbreviation dict := (list (pykey * pyval)).

Definition key_val (k : pykey) : pyval :=
  match k with
  | KNone => PNone
  | KBool b => PBool b
  | KInt z => PInt z
  | KStr s => PStr s
  end.

Module Py.

(** [bool(v)] *)
Definition truthy (v : pyval) : bool :=
  match v with
  | PNone => false
  | PBool b => b
  | PInt z => negb (z =? 0)%Z
  | PStr s => negb (Str.is_empty s)
  | PList l => match l with [] => false | _ => true end
  | PDict d => match d with [] => false | _ => true end
  end.

Definition key_is (k : string) (k' : pykey) : bool :=
  match k' with
  | KStr s => String.eqb s k
  | _ => false
  end.

(** [d[k]] for a string key, when bound. *)
Fixpoint lookup (d : dict) (k : string) : option pyval :=
  match d with
  | [] => None
  | (k', v) :: d' => if key_is k k' then Some v else lookup d' k
  end.

(** [k in d] *)
Definition contains (d : dict) (k : string) : bool :=
  match lookup d k with Some _ => true | None => false end.

(** [d.get(k, default)] on a dictionary. *)
Definition get_or (d : dict) (k : string) (default : pyval) : pyval :=
  match lookup d k with Some v => v | None => default end.

(** [o.get(k, default)]: only dictionaries have the method. *)
Definition get (o : pyval) (k : string) (default : pyval) : result pyval :=
  match o with
  | PDict d => Ok (get_or d k default)
  | _ => Raise AttributeError
  end.

(** [d[k] = v]: a bound key keeps its position, a new key goes last. *)
Fixpoint set (d : dict) (k : string) (v : pyval) : dict :=
  match d with
  | [] => [(KStr k, v)]
  | (k', v') :: d' =>
      if key_is k k' then (k', v) :: d' else (k', v') :: set d' k v
  end.

(** [d[k].append(x)] where [d[k]] is a list. *)
Fixpoint append_at (d : dict) (k : string) (x : pyval) : dict :=
  match d with
  | [] => []
  | (k', v') :: d' =>
      if key_is k k'
      then (k', match v' with PList l => PList (l ++ [x]) | _ => v' end) :: d'
      else (k', v') :: append_at d' k x
  end.

Fixpoint chars (s : string) : list pyval :=
  match s with
  | EmptyString => []
  | String c s' => PStr (String c EmptyString) :: chars s'
  end.

(** The elements a [for] loop visits, or [TypeError]. *)
Definition iter (v : pyval) : result (list pyval) :=
  match v with
  | PList l => Ok l
  | PStr s => Ok (chars s)
  | PDict d => Ok (List.map (fun kv => key_val (fst kv)) d)
  | PNone | PBool _ | PInt _ => Raise TypeError
  end.

(** [isinstance(v, str)] *)
Definition is_str (v : pyval) : bool :=
  match v with PStr _ => true | _ => false end.

(** *** [repr] and [str] *)

Definition hex_digit (n : N) : ascii :=
  ascii_of_N (if (n <? 10)%N then 48 + n else 87 + n).

Definition hex_escape (c : ascii) : string :=
  let n := Char.code c in
  String "\" (String "x" (String (hex_digit (n / 16)) (String (hex_digit (n mod 16)) ""))).

Definition single_quote : ascii := "039".
Definition double_quote : ascii := "034".

Definition has_char (c : ascii) (s : string) : bool :=
  negb (Str.all (fun x => negb (Ascii.eqb x c)) s).

(** The quote [repr] chooses: double quotes only when the string holds
    a single quote and no double quote. *)
Definition repr_quote (s : string) : ascii :=
  if has_char single_quote s && negb (has_char double_quote s)
  then double_quote else single_quote.

Definition printable (c : ascii) : bool :=
  let n := Char.code c in
  ((32 <=? n) && (n <? 127) || (161 <=? n) && negb (n =? 173))%N.

Definition repr_char (q c : ascii) : string :=
  if Ascii.eqb c q || Ascii.eqb c "\" then String "\" (String c "")
  else if Ascii.eqb c "009" then "\t"
  else if Ascii.eqb c "010" then "\n"
  else if Ascii.eqb c "013" then "\r"
  else if printable c then String c ""
  else hex_escape c.

Fixpoint repr_chars (q : ascii) (s : string) : string :=
  match s with
  | EmptyString => EmptyString
  | String c s' => repr_char q c +:+ repr_chars q s'
  end.

Definition repr_str (s : string) : string :=
  let q := repr_quote s in
  String q (repr_chars q s +:+ String q "").

Definition repr_int (z : Z) : string :=
  NilEmpty.string_of_int (Z.to_int z).

Definition repr_bool (b : bool) : string := if b then "True" else "False".

Definition repr_key (k : pykey) : string :=
  match k with
  | KNone => "None"
  | KBool b => repr_bool b
  | KInt z => repr_int z
  | KStr s => repr_str s
  end.

Fixpoint join (sep : string) (l : list string) : string :=
  match l with
  | [] => ""
  | [x] => x
  | x :: l' => x +:+ sep +:+ join sep l'
  end.

Fixpoint repr (v : pyval) : string :=
  match v with
  | PNone => "None"
  | PBool b => repr_bool b
  | PInt z => repr_int z
  | PStr s => repr_str s
  | PList l => "[" +:+ join ", " (List.map repr l) +:+ "]"
  | PDict d =>
      "{" +:+ join ", " (List.map (fun '(k, x) => repr_key k +:+ ": " +:+ repr x) d) +:+ "}"
  end.

(** [str(v)] *)
Definition str (v : pyval) : string :=
  match v with
  | PStr s => s
  | _ => repr v
  end.

End Py.


(** ** The record transformation of [fix_submission_file] (lines 24-64) *)

(** Lines 51-61: the loop over the instruction entries, with the list
    [cleaned_instructions] it appends to. *)
Fixpoint clean_loop (instructions cleaned_instructions : list pyval) : list pyval :=
  match instructions with
  | [] => cleaned_instructions
  | inst :: rest =>
      match inst with
      | PStr s =>
          match clean_instruction s with
          | Some cleaned => clean_loop rest (cleaned_instructions ++ [PStr cleaned])
          | None => clean_loop rest cleaned_instructions
          end
      | _ => clean_loop rest (cleaned_instructions ++ [PStr (Py.str inst)])
      end
  end.

(** Lines 39-63: the body of the loop over the claims. *)
Definition fix_claim (claim : pyval) : result pyval :=
  c ← Py.get claim "claim" (PStr "");
  let fixed_claim := [(KStr "claim", c); (KStr "instruction", PList [])] in
  instructions ← Py.get claim "instruction" (PList []);
  let instructions :=
    if Py.is_str instructions then PList [instructions] else instructions in
  insts ← Py.iter instructions;
  let cleaned_instructions := clean_loop insts [] in
  mret (PDict (Py.set fixed_claim "instruction" (PList cleaned_instructions))).

(** Lines 38 and 64: each fixed claim is appended to [fixed_data['claims']]. *)
Fixpoint claims_loop (claims : list pyval) (fixed_data : dict) : result dict :=
  match claims with
  | [] => mret fixed_data
  | claim :: rest =>
      fixed_claim ← fix_claim claim;
      claims_loop rest (Py.append_at fixed_data "claims" fixed_claim)
  end.

(** Lines 24-64.  A value that is not a dictionary has no [get]: the
    first lookup on line 25 raises. *)
Definition fix_record (data : pyval) : result dict :=
  match data with
  | PDict data =>
      let fixed_data :=
        [ (KStr "username", Py.get_or data "username" (PStr ""));
          (KStr "paper_title", Py.get_or data "paper_title" (PStr ""));
          (KStr "paper_pdf", Py.get_or data "paper_pdf" (PStr ""));
          (KStr "identifier", Py.get_or data "identifier" (PStr ""));
          (KStr "claim_type", PStr "custom_code");
          (KStr "code_url", Py.get_or data "code_url" (PStr "NOT_SPECIFIED"));
          (KStr "data_url", Py.get_or data "data_url" (PStr "NOT_SPECIFIED"));
          (KStr "claims", PList []);
          (KStr "non_reproducible_claims",
            Py.get_or data "non_reproducible_claims" (PList [])) ] in
      if Py.contains data "claims" && Py.truthy (Py.get_or data "claims" PNone)
      then
        claims ← Py.iter (Py.get_or data "claims" PNone);
        claims_loop claims fixed_data
      else mret fixed_data
  | _ => Raise AttributeError
  end.

(** *** The transformation as a function of its input

    The loops above as list functions; [Section Record] proves that they
    compute the same results. *)

(** The instructions a claim is iterated over (lines 45-48). *)
Definition instructions_of (d : dict) : pyval :=
  let instructions := Py.get_or d "instruction" (PList []) in
  if Py.is_str instructions then PList [instructions] else instructions.

(** What one instruction entry contributes to [cleaned_instructions]. *)
Definition clean_entry (inst : pyval) : list pyval :=
  match inst with
  | PStr s =>
      match clean_instruction s with
      | Some cleaned => [PStr cleaned]
      | None => []
      end
  | _ => [PStr (Py.str inst)]
  end.

Fixpoint map_result {A B : Type} (f : A -> result B) (l : list A) : result (list B) :=
  match l with
  | [] => Ok []
  | x :: l' => y ← f x; l'' ← map_result f l'; Ok (y :: l'')
  end.

(** The dictionary of lines 24-34 with [claims] as its list of claims. *)
Definition fixed_template (data : dict) (claims : list pyval) : dict :=
  [ (KStr "username", Py.get_or data "username" (PStr ""));
    (KStr "paper_title", Py.get_or data "paper_title" (PStr ""));
    (KStr "paper_pdf", Py.get_or data "paper_pdf" (PStr ""));
    (KStr "identifier", Py.get_or data "identifier" (PStr ""));
    (KStr "claim_type", PStr "custom_code");
    (KStr "code_url", Py.get_or data "code_url" (PStr "NOT_SPECIFIED"));
    (KStr "data_url", Py.get_or data "data_url" (PStr "NOT_SPECIFIED"));
    (KStr "claims", PList claims);
    (KStr "non_reproducible_claims",
      Py.get_or data "non_reproducible_claims" (PList [])) ].

(** The claims of the output, from the claims of the input. *)
Definition fixed_claims (data : dict) : result (list pyval) :=
  if Py.contains data "claims" && Py.truthy (Py.get_or data "claims" PNone)
  then claims ← Py.iter (Py.get_or data "claims" PNone); map_result fix_claim claims
  else Ok [].

(** The schema of a fixed record and of a fixed claim. *)
Definition schema_keys : list pykey :=
  [ KStr "username"; KStr "paper_title"; KStr "paper_pdf"; KStr "identifier";
    KStr "claim_type"; KStr "code_url"; KStr "data_url"; KStr "claims";
    KStr "non_reproducible_claims" ].

Definition claim_keys : list pykey := [KStr "claim"; KStr "instruction"].

(** The instruction entries of a claim and of a record. *)
Definition claim_instructions (claim : pyval) : list pyval :=
  match claim with
  | PDict c =>
      match Py.lookup c "instruction" with
      | Some (PList l) => l
      | _ => []
      end
  | _ => []
  end.

Definition record_instructions (record : dict) : list pyval :=
  match Py.lookup record "claims" with
  | Some (PList claims) => flat_map claim_instructions claims
  | _ => []
  end.

(** Values a [for] loop cannot iterate and that are not strings. *)
Definition is_scalar (v : pyval) : bool :=
  match v with
  | PNone | PBool _ | PInt _ => true
  | PStr _ | PList _ | PDict _ => false
  end.

(** ** The world: files and printed messages *)

(** What the scripts print, one constructor per [print] call. *)
Inductive message : Type :=
| MsgUrlWarning (field : string)                      (* fix_submission.py:72 *)
| MsgFixed (input_file : string)                      (* fix_submission.py:78 *)
| MsgErrorFixing (input_file : string) (e : exn)      (* fix_submission.py:82 *)
| MsgNoSubmissions (input_directory : string)         (* fix_submission.py:115 *)
| MsgRenaming (old new : string)                      (* fix_submission.py:130 *)
| MsgWillRename (old new : string)                    (* fix_submission.py:134 *)
| MsgBatchComplete                                    (* fix_submission.py:144 *)
| MsgSuccessful (n : nat)                             (* fix_submission.py:145 *)
| MsgFailed (n : nat)                                 (* fix_submission.py:146 *)
| MsgCodeUrlFixed (file_path : string)                (* fix_code_url.py:18 *)
| MsgCodeUrlValid (file_path : string)                (* fix_code_url.py:25 *)
| MsgCodeUrlError (file_path : string) (e : exn).     (* fix_code_url.py:29 *)

(** Files are a flat map from path to text; directories are implicit.
    [write_protected] holds the paths [open(_, 'w')] fails on. *)
Record world : Type := World {
  files : gmap string string;
  write_protected : gset string;
  stdout : list message
}.

(** Computations that read and change the world and may raise.  What was
    printed or written before an exception stays. *)
Definition io (A : Type) : Type := world -> result A * world.

#[global] Instance io_ret : MRet io := fun A a w => (Ok a, w).
#[global] Instance io_bind : MBind io :=
  fun A B f m w =>
    match m w with
    | (Ok a, w') => f a w'
    | (Raise e, w') => (Raise e, w')
    end.

Definition lift {A : Type} (r : result A) : io A := fun w => (r, w).

Definition raise {A : Type} (e : exn) : io A := lift (Raise e).

(** [try: m except Exception as e: handler e] *)
Definition try_except {A : Type} (m : io A) (handler : exn -> io A) : io A :=
  fun w =>
    match m w with
    | (Ok a, w') => (Ok a, w')
    | (Raise e, w') => handler e w'
    end.

Definition print (m : message) : io unit :=
  fun w => (Ok tt, World (files w) (write_protected w) (stdout w ++ [m])).

(** [open(path, 'r')] and reading the text. *)
Definition read_file (path : string) : io string :=
  fun w =>
    match files w !! path with
    | Some text => (Ok text, w)
    | None => (Raise OSError, w)
    end.

(** [open(path, 'w')] and writing [text]. *)
Definition write_file (path text : string) : io unit :=
  fun w =>
    if decide (path ∈ write_protected w) then (Raise OSError, w)
    else (Ok tt, World (<[path := text]> (files w)) (write_protected w) (stdout w)).

Fixpoint for_each {A : Type} (l : list A) (body : A -> io unit) : io unit :=
  match l with
  | [] => mret tt
  | x :: l' => body x;; for_each l' body
  end.

(** [pathlib] on POSIX paths, as far as the scripts use it. *)
Module Posix.

(** What the slashes of a string separate; [cur] is the piece being read. *)
Fixpoint split (s cur : string) : list string :=
  match s with
  | EmptyString => [cur]
  | String c s' =>
      if Ascii.eqb c "/" then cur :: split s' ""
      else split s' (cur +:+ String c "")
  end.

(** The root of a path: exactly two leading slashes are kept, any other
    number of them is one slash. *)
Definition root (s : string) : string :=
  if String.prefix "///" s then "/"
  else if String.prefix "//" s then "//"
  else if String.prefix "/" s then "/"
  else "".

(** The components: the pieces that are neither empty nor a dot. *)
Definition parts (s : string) : list string :=
  List.filter (fun c => negb (String.eqb c "") && negb (String.eqb c "."))
    (split s "").

(** [str(Path(s))] *)
Definition pure_path (s : string) : string :=
  match root s, parts s with
  | EmptyString, [] => "."
  | r, ps => r +:+ Py.join "/" ps
  end.

(** [str(Path(directory) / name)] for a normalised [directory] and a
    [name] without slash: nothing is added for an empty name or a dot,
    nothing is put before the name in the current directory, and no slash
    is put after a root. *)
Definition join_dir (directory name : string) : string :=
  if String.eqb name "" || String.eqb name "." then directory
  else if String.eqb directory "." then name
  else if String.eqb directory "/" || String.eqb directory "//"
       then directory +:+ name
       else directory +:+ "/" +:+ name.

(** The directories [Path(s).mkdir(parents=True)] goes through, the path
    itself last. *)
Fixpoint below (directory : string) (components : list string) : list string :=
  match components with
  | [] => []
  | c :: rest => join_dir directory c :: below (join_dir directory c) rest
  end.

Definition ancestors (s : string) : list string :=
  below (match root s with EmptyString => "." | r => r end) (parts s).

End Posix.

(** A [pathlib.Path] below a directory: the directory as it was written
    and the name, the last component ([p.name], which holds no slash). *)
Record Path : Type := { parent : string; name : string }.

(** [str(p)]: [pathlib] drops from the directory the slashes and dots
    that name nothing, then puts the name after it. *)
Definition path_str (p : Path) : string :=
  Posix.join_dir (Posix.pure_path (parent p)) (name p).

(** [directory / name] for a name without slash. *)
Definition joinpath (directory name : string) : Path :=
  {| parent := directory; name := name |}.

Definition fallback_url : string := "http://www.quantum-espresso.org/download".

Definition url_fields : list string := ["paper_pdf"; "code_url"; "data_url"].

(** Lines 69-72 of [fix_submission_file].  A true value that is not a
    string differs from the sentinel and has no [startswith]. *)
Definition check_url (fixed_data : dict) (field : string) : io unit :=
  if Py.contains fixed_data field && Py.truthy (Py.get_or fixed_data field PNone)
  then
    match Py.get_or fixed_data field PNone with
    | PStr url =>
        if negb (String.eqb url "NOT_SPECIFIED")
           && negb (Str.startswith url "http://" || Str.startswith url "https://")
        then print (MsgUrlWarning field)
        else mret tt
    | _ => raise AttributeError
    end
  else mret tt.

Section Scripts.

(** The codecs of PyYAML and of the [json] module. *)
Variable yaml_safe_load : string -> result pyval.
Variable json_load : string -> result pyval.
Variable yaml_dump : pyval -> string.

(** [Path.glob]: the files of a directory matching a pattern, in the
    order the operating system lists them. *)
Variable glob : world -> string -> string -> list Path.

(** What makes the operating system refuse to create a directory and the
    file map does not show (permissions, a read-only device). *)
Variable mkdir_denied : world -> string -> bool.

(** *** [fix_submission.py] *)

(** Lines 16-21: YAML first, JSON when the YAML parser rejects the text. *)
Definition load_submission (input_file : string) : io pyval :=
  text ← read_file input_file;
  match yaml_safe_load text with
  | Raise YAMLError => lift (json_load text)
  | r => lift r
  end.

(** Lines 15-79: the body of the [try] block. *)
Definition fix_submission_body (input_file output_file : string) : io bool :=
  data ← load_submission input_file;
  fixed_data ← lift (fix_record data);
  for_each url_fields (check_url fixed_data);;
  write_file output_file (yaml_dump (PDict fixed_data));;
  print (MsgFixed input_file);;
  mret true.

Definition fix_submission_file (input_file : string) (output_file : option string)
  : io bool :=
  let output_file :=
    match output_file with None => input_file | Some o => o end in
  try_except (fix_submission_body input_file output_file)
    (fun e => print (MsgErrorFixing input_file e);; mret false).

(** [if output_directory:] *)
Definition given (output_directory : option string) : bool :=
  match output_directory with
  | Some d => negb (Str.is_empty d)
  | None => false
  end.

(** Lines 121-142: the loop over the files, with its two counters. *)
Fixpoint batch_loop (submission_files : list Path)
    (output_directory : option string) (output_path : string)
    (successful failed : nat) : io (nat * nat) :=
  match submission_files with
  | [] => mret (successful, failed)
  | file_path :: rest =>
      let '(is_valid, suggested_name) := validate_filename (name file_path) in
      output_file ←
        (if given output_directory then
           if is_valid then mret (joinpath output_path (name file_path))
           else
             print (MsgRenaming (name file_path) suggested_name);;
             mret (joinpath output_path suggested_name)
         else
           if negb is_valid then
             print (MsgWillRename (name file_path) suggested_name);;
             mret (joinpath (parent file_path) suggested_name)
           else mret file_path);
      ok ← fix_submission_file (path_str file_path) (Some (path_str output_file));
      if ok : bool
      then batch_loop rest output_directory output_path (S successful) failed
      else batch_loop rest output_directory output_path successful (S failed)
  end.

(** [Path(path).mkdir(parents=True, exist_ok=True)] raises when the path
    or one of the directories above it is a regular file, or when the
    operating system refuses; a directory that exists is accepted.
    Directories are implicit in the file map, so nothing else changes. *)
Definition mkdir_raises (w : world) (path : string) : bool :=
  existsb (fun d => match files w !! d with Some _ => true | None => false end)
    (Posix.ancestors path)
  || mkdir_denied w path.

Definition mkdir (path : string) : io unit :=
  fun w => if mkdir_raises w path then (Raise OSError, w) else (Ok tt, w).

(** Lines 105-109: the directory the fixed files go to; [mkdir] is called
    outside any [try]. *)
Definition output_path_of (input_path : string) (output_directory : option string)
  : string :=
  if given output_directory
  then Posix.pure_path (match output_directory with Some d => d | None => "" end)
  else input_path.

(** Lines 99-146. *)
Definition batch_fix_submissions (input_directory : string)
    (output_directory : option string) : io unit :=
  let input_path := Posix.pure_path input_directory in
  let output_path := output_path_of input_path output_directory in
  (if given output_directory then mkdir output_path else (mret tt : io unit));;
  (fun w =>
    let submission_files :=
      (glob w input_path "*.yaml" ++ glob w input_path "*.yml"
       ++ glob w input_path "*.json") in
    match submission_files with
    | [] => print (MsgNoSubmissions input_directory) w
    | _ =>
        ('(successful, failed) ←
           batch_loop submission_files output_directory output_path 0 0;
         print MsgBatchComplete;;
         print (MsgSuccessful successful);;
         print (MsgFailed failed)) w
    end) : io unit.

(** *** [fix_code_url.py] *)

(** [v.strip()]: only strings have the method. *)
Definition py_strip (v : pyval) : result string :=
  match v with
  | PStr s => Ok (Str.strip s)
  | _ => Raise AttributeError
  end.

(** [v == 'NOT_SPECIFIED'] *)
Definition is_sentinel (v : pyval) : bool :=
  match v with
  | PStr s => String.eqb s "NOT_SPECIFIED"
  | _ => false
  end.

(** Line 16, with the short-circuit of [or]. *)
Definition needs_fix (code_url : pyval) : result bool :=
  if negb (Py.truthy code_url) then Ok true
  else if is_sentinel code_url then Ok true
  else s ← py_strip code_url; Ok (Str.is_empty s).

(** [data[k] = v] *)
Definition setitem (data : pyval) (k : string) (v : pyval) : result pyval :=
  match data with
  | PDict d => Ok (PDict (Py.set d k v))
  | _ => Raise TypeError
  end.

(** Lines 10-26: the body of the [try] block. *)
Definition fix_code_url_body (file_path : string) : io bool :=
  text ← read_file file_path;
  data ← lift (yaml_safe_load text);
  code_url ← lift (Py.get data "code_url" (PStr ""));
  needed ← lift (needs_fix code_url);
  if needed : bool then
    data ← lift (setitem data "code_url" (PStr fallback_url));
    print (MsgCodeUrlFixed file_path);;
    write_file file_path (yaml_dump data);;
    mret true
  else
    print (MsgCodeUrlValid file_path);;
    mret false.

Definition fix_code_url (file_path : string) : io bool :=
  try_except (fix_code_url_body file_path)
    (fun e => print (MsgCodeUrlError file_path e);; mret false).

End Scripts.

(** *** Vocabulary of the statements *)

(** The world after more messages were printed, and after a file was
    written. *)
Definition emit (w : world) (msgs : list message) : world :=
  World (files w) (write_protected w) (stdout w ++ msgs).

Definition written (w : world) (path text : string) : world :=
  World (<[path := text]> (files w)) (write_protected w) (stdout w).

(** The file named on line 12 or given by the caller. *)
Definition target (input_file : string) (output_file : option string) : string :=
  match output_file with None => input_file | Some o => o end.

(** The messages report an outcome for the file. *)
Definition reported (input_file : string) (msgs : list message) : Prop :=
  In (MsgFixed input_file) msgs \/ exists e, In (MsgErrorFixing input_file e) msgs.

(** A URL value the validation can look at: a string, or a false value. *)
Definition url_value_ok (v : pyval) : bool :=
  Py.is_str v || negb (Py.truthy v).

(** A URL that is present, not the sentinel, and without [http://] or
    [https://] in front. *)
Definition malformed_url (url : string) : bool :=
  negb (Str.is_empty url) && negb (String.eqb url "NOT_SPECIFIED")
  && negb (Str.startswith url "http://") && negb (Str.startswith url "https://").

(** [code_url] is absent, [None], empty, white space or the sentinel. *)
Definition code_url_unset (data : dict) : bool :=
  match Py.lookup data "code_url" with
  | None => true
  | Some PNone => true
  | Some (PStr s) => String.eqb s "NOT_SPECIFIED" || Str.all Char.is_space s
  | Some _ => false
  end.

(** [code_url] is any other string. *)
Definition code_url_given (data : dict) : bool :=
  match Py.lookup data "code_url" with
  | Some (PStr s) => negb (String.eqb s "NOT_SPECIFIED") && negb (Str.all Char.is_space s)
  | _ => false
  end.

(** *** A codec and a directory listing for the examples

    The statements hold for every codec.  The examples run the scripts
    with a codec given by a table from file texts to values, with [repr]
    as the writer, and with [glob] over a fixed listing. *)

Definition table_load (table : list (string * pyval)) (error : exn) (text : string)
  : result pyval :=
  match List.find (fun entry => String.eqb (fst entry) text) table with
  | Some (_, v) => Ok v
  | None => Raise error
  end.

Definition ends_with (s suffix : string) : bool :=
  String.prefix (String.rev suffix) (String.rev s).

Definition listing_glob (listing : list Path) (w : world) (directory pattern : string)
  : list Path :=
  List.filter
    (fun p =>
       String.eqb (parent p) directory
       && ends_with (name p) (match pattern with String _ ext => ext | _ => pattern end))
    listing.

(** A record with a numbered instruction, one with a malformed URL, one
    with a malformed URL and a number for [code_url], one with a number
    for an instruction, and two for [fix_code_url]. *)
Definition example_table : list (string * pyval) :=
  [ ("good",
      PDict [ (KStr "username", PStr "ada");
              (KStr "claims",
                PList [PDict [ (KStr "claim", PStr "X");
                               (KStr "instruction", PStr "1. Do thing.") ]]) ]);
    ("ftp", PDict [(KStr "paper_pdf", PStr "ftp://host/paper.pdf")]);
    ("ftp and number",
      PDict [ (KStr "paper_pdf", PStr "ftp://host/paper.pdf");
              (KStr "code_url", PInt 123) ]);
    ("scalar",
      PDict [(KStr "claims",
               PList [PDict [(KStr "claim", PStr "X"); (KStr "instruction", PInt 5)]])]);
    ("blank url", PDict [(KStr "username", PStr "ada"); (KStr "code_url", PStr "  ")]);
    ("own url", PDict [(KStr "code_url", PStr "https://example.org/code")]) ].

Definition example_yaml : string -> result pyval := table_load example_table YAMLError.
Definition example_json : string -> result pyval := table_load [] ValueError.

Definition example_listing : list Path :=
  [ joinpath "subs" "a.yaml"; joinpath "subs" "b c.yaml"; joinpath "subs" "notes.txt" ].

Definition example_world : world :=
  World
    (<["subs/a.yaml" := "good"]>
       (<["subs/b c.yaml" := "not a record"]>
          (<["subs/ftp.yaml" := "ftp"]>
             (<["subs/mixed.yaml" := "ftp and number"]>
                (<["subs/scalar.yaml" := "scalar"]>
                   (<["subs/blank.yaml" := "blank url"]>
                      (<["subs/own.yaml" := "own url"]> ∅)))))))
    ∅ [].

(** *** The rest of the scripts *)

(** The record transformation succeeds on such a claim: a dictionary whose
    instruction is absent, a string, a list or a dictionary. *)
Definition claim_ok (claim : pyval) : bool :=
  match claim with
  | PDict c => negb (is_scalar (Py.get_or c "instruction" (PList [])))
  | _ => false
  end.

(** ... and on such a document: a dictionary whose claims are absent or a
    false value, or can be iterated and are all as above. *)
Definition record_ok (data : pyval) : bool :=
  match data with
  | PDict d =>
      if Py.contains d "claims" && Py.truthy (Py.get_or d "claims" PNone)
      then
        match Py.iter (Py.get_or d "claims" PNone) with
        | Ok claims => forallb claim_ok claims
        | Raise _ => false
        end
      else true
  | _ => false
  end.

(** The URL validation warns about this field. *)
Definition warned (fixed_data : dict) (field : string) : bool :=
  match Py.lookup fixed_data field with
  | Some (PStr url) => malformed_url url
  | _ => false
  end.

(** [fix_code_url] replaces the [code_url] of such a record (line 16):
    a false value, the sentinel, or a string of white space. *)
Definition code_url_replaced (data : dict) : bool :=
  match Py.get_or data "code_url" (PStr "") with
  | PStr s => String.eqb s "NOT_SPECIFIED" || Str.all Char.is_space s
  | v => negb (Py.truthy v)
  end.

Definition no_slash (s : string) : bool :=
  Str.all (fun x => negb (Ascii.eqb x "/")) s.

(** Lines 125-137 of [batch_fix_submissions]: where the loop writes the
    fixed form of a file. *)
Definition batch_output (output_directory : option string) (output_path : string)
    (file_path : Path) : Path :=
  let '(is_valid, suggested_name) := validate_filename (name file_path) in
  if given output_directory then
    if is_valid then joinpath output_path (name file_path)
    else joinpath output_path suggested_name
  else
    if negb is_valid then joinpath (parent file_path) suggested_name
    else file_path.

(** Lines 129 and 134: what the loop prints before it fixes a file whose
    name is refused. *)
Definition rename_notice (output_directory : option string) (file_path : Path)
  : list message :=
  let '(is_valid, suggested_name) := validate_filename (name file_path) in
  if is_valid then []
  else if given output_directory
       then [MsgRenaming (name file_path) suggested_name]
       else [MsgWillRename (name file_path) suggested_name].

Section BatchRun.

Variable yaml_safe_load json_load : string -> result pyval.
Variable yaml_dump : pyval -> string.

(** The calls of [fix_submission_file] of lines 139-142, one after the
    other: [batch_run od op fs w outcomes w'] when going through the files
    [fs] from the world [w], each call on the world the call before it
    left, returns the booleans [outcomes] and leaves the world [w']. *)
Inductive batch_run (output_directory : option string) (output_path : string)
  : list Path -> world -> list bool -> world -> Prop :=
| batch_run_nil w : batch_run output_directory output_path [] w [] w
| batch_run_cons file_path rest w ok w1 outcomes w2 :
    fix_submission_file yaml_safe_load json_load yaml_dump
      (path_str file_path)
      (Some (path_str (batch_output output_directory output_path file_path)))
      (emit w (rename_notice output_directory file_path))
    = (Ok ok, w1) ->
    batch_run output_directory output_path rest w1 outcomes w2 ->
    batch_run output_directory output_path (file_path :: rest) w (ok :: outcomes) w2.

End BatchRun.

(** The operating system refuses no directory. *)
Definition never_denied : world -> string -> bool := fun _ _ => false.

Section UrlBatch.

Variable yaml_safe_load : string -> result pyval.
Variable yaml_dump : pyval -> string.

(** Lines 43-46 of [batch_fix_code_urls]: the loop that counts the files
    [fix_code_url] fixed. *)
Fixpoint code_url_loop (yaml_files : list Path) (fixed_count : nat) : io nat :=
  match yaml_files with
  | [] => mret fixed_count
  | file_path :: rest =>
      fixed ← fix_code_url yaml_safe_load yaml_dump (path_str file_path);
      code_url_loop rest (if fixed : bool then S fixed_count else fixed_count)
  end.

End UrlBatch.

(** A reader that gives back the record [fix_code_url] writes for the
    file ["subs/blank.yaml"] of the example world. *)
Definition example_fixed_record : pyval :=
  PDict (Py.set [(KStr "username", PStr "ada"); (KStr "code_url", PStr "  ")]
           "code_url" (PStr fallback_url)).

Definition example_yaml_back (text : string) : result pyval :=
  if String.eqb text (Py.repr example_fixed_record) then Ok example_fixed_record
  else example_yaml text.

(** * Properties *)

(** ** The functions on concrete inputs *)

Example strip_example : Str.strip "  1. Run it.  " = "1. Run it.".
Proof. reflexivity. Qed.

Example clean_example : clean_instruction "1. Run the script" = Some "Run the script".
Proof. reflexivity. Qed.

Example clean_example_dot : clean_instruction "1. Do thing." = Some "Do thing".
Proof. reflexivity. Qed.

Example clean_example_plain : clean_instruction "Unnumbered step" = Some "Unnumbered step".
Proof. reflexivity. Qed.

Example clean_example_dropped : clean_instruction " 12. ... " = None.
Proof. reflexivity. Qed.

Example basename_example : basename "submissions/sub dir/a.yaml" = "a.yaml".
Proof. reflexivity. Qed.

Example validate_example_ok :
  validate_filename "submissions/paper-1_v2.yaml" = (true, "paper-1_v2.yaml").
Proof. reflexivity. Qed.

Example repr_example :
  Py.str (PList [PInt (-3); PStr "it's"; PDict [(KStr "a", PNone)]; PBool true])
  = "[-3, " +:+ String Py.double_quote
      ("it's" +:+ String Py.double_quote ", {'a': None}, True]").
Proof. reflexivity. Qed.

(** The end-to-end example of the specification. *)
Example fix_record_example :
  fix_record
    (PDict [(KStr "claims",
             PList [PDict [(KStr "claim", PStr "X");
                           (KStr "instruction", PStr "1. Do thing.")]])])
  = Ok [ (KStr "username", PStr "");
         (KStr "paper_title", PStr "");
         (KStr "paper_pdf", PStr "");
         (KStr "identifier", PStr "");
         (KStr "claim_type", PStr "custom_code");
         (KStr "code_url", PStr "NOT_SPECIFIED");
         (KStr "data_url", PStr "NOT_SPECIFIED");
         (KStr "claims",
           PList [PDict [(KStr "claim", PStr "X");
                         (KStr "instruction", PList [PStr "Do thing"])]]);
         (KStr "non_reproducible_claims", PList []) ].
Proof. reflexivity. Qed.

(** Entries that are not strings are kept as their [str]. *)
Example fix_claim_mixed :
  fix_claim (PDict [(KStr "instruction", PList [PInt 3; PStr "2. b."; PStr "."; PNone])])
  = Ok (PDict [(KStr "claim", PStr "");
               (KStr "instruction", PList [PStr "3"; PStr "b"; PStr "None"])]).
Proof. reflexivity. Qed.

(** ** Strings *)

Section StringFacts.

Implicit Types (p : ascii -> bool) (s a b : string) (c : ascii).

Lemma space_not_digit c : Char.is_space c = true -> Char.is_digit c = false.
Proof. destruct c as [[] [] [] [] [] [] [] []]; vm_compute; congruence. Qed.

Lemma digit_not_space c : Char.is_digit c = true -> Char.is_space c = false.
Proof. destruct c as [[] [] [] [] [] [] [] []]; vm_compute; congruence. Qed.

Lemma digit_not_dot c : Char.is_digit c = true -> Char.is_dot c = false.
Proof. destruct c as [[] [] [] [] [] [] [] []]; vm_compute; congruence. Qed.

Lemma is_dot_eq c : Char.is_dot c = true -> c = "."%char.
Proof. unfold Char.is_dot. intros H. now apply Ascii.eqb_eq. Qed.

Lemma is_empty_eq s : Str.is_empty s = true <-> s = "".
Proof. destruct s; simpl; split; congruence. Qed.

Lemma is_empty_app a b : Str.is_empty (a +:+ b) = Str.is_empty a && Str.is_empty b.
Proof. destruct a; reflexivity. Qed.

Lemma app_assoc_str a b s : (a +:+ b) +:+ s = a +:+ (b +:+ s).
Proof. induction a as [|x a IH]; simpl; [reflexivity | now rewrite IH]. Qed.

Lemma app_empty_r s : s +:+ "" = s.
Proof. induction s as [|x s IH]; simpl; [reflexivity | now rewrite IH]. Qed.

Lemma length_app_str a b :
  String.length (a +:+ b) = (String.length a + String.length b)%nat.
Proof. induction a as [|x a IH]; simpl; [reflexivity | now rewrite IH]. Qed.

Lemma all_app p a b : Str.all p (a +:+ b) = Str.all p a && Str.all p b.
Proof.
  induction a as [|x a IH]; simpl; [reflexivity |].
  rewrite IH. now rewrite andb_assoc.
Qed.

(** [lstrip_by] removes a prefix made of [p] ... *)
Lemma lstrip_app_all p a b :
  Str.all p a = true -> Str.lstrip_by p (a +:+ b) = Str.lstrip_by p b.
Proof.
  induction a as [|x a IH]; simpl; [reflexivity |].
  intros [Hx Ha]%andb_prop. rewrite Hx. auto.
Qed.

(** ... stops at the first other character ... *)
Lemma lstrip_stop p c s : p c = false -> Str.lstrip_by p (String c s) = String c s.
Proof. intros H. simpl. now rewrite H. Qed.

Lemma lstrip_all p s : Str.all p s = true -> Str.lstrip_by p s = "".
Proof.
  intros H. rewrite <- (app_empty_r s). now rewrite lstrip_app_all.
Qed.

(** ... and what it removes is made of [p]. *)
Lemma lstrip_split p s :
  exists pre, s = pre +:+ Str.lstrip_by p s /\ Str.all p pre = true.
Proof.
  induction s as [|x s (pre & Hs & Hp)]; simpl.
  - exists "". split; reflexivity.
  - destruct (p x) eqn:Hx.
    + exists (String x pre). simpl. rewrite Hx, Hp. split; [congruence | reflexivity].
    + exists "". split; reflexivity.
Qed.

Lemma lstrip_head p s :
  match Str.head (Str.lstrip_by p s) with
  | Some c => p c = false
  | None => Str.all p s = true
  end.
Proof.
  induction s as [|x s IH]; simpl; [reflexivity |].
  destruct (p x) eqn:Hx; simpl; [| exact Hx].
  destruct (Str.head (Str.lstrip_by p s)); auto.
Qed.

Lemma lstrip_length p s :
  (String.length (Str.lstrip_by p s) <= String.length s)%nat.
Proof.
  induction s as [|x s IH]; simpl; [lia |].
  destruct (p x); simpl; lia.
Qed.

Lemma last_app a b : b <> "" -> Str.last (a +:+ b) = Str.last b.
Proof.
  intros Hb. induction a as [|x a IH]; simpl; [reflexivity |].
  rewrite IH. destruct b as [|y b]; [congruence |].
  simpl. destruct (Str.last b); reflexivity.
Qed.

Lemma last_none s : Str.last s = None -> s = "".
Proof.
  destruct s as [|x s]; simpl; [reflexivity |].
  destruct (Str.last s); discriminate.
Qed.

(** [rstrip_by] removes a suffix made of [p] ... *)
Lemma rstrip_all p s : Str.all p s = true -> Str.rstrip_by p s = "".
Proof.
  induction s as [|x s IH]; simpl; [reflexivity |].
  intros [Hx Hs]%andb_prop. rewrite (IH Hs), Hx. reflexivity.
Qed.

Lemma rstrip_app_all p a b :
  Str.all p b = true -> Str.rstrip_by p (a +:+ b) = Str.rstrip_by p a.
Proof.
  intros Hb. induction a as [|x a IH]; simpl.
  - now apply rstrip_all.
  - now rewrite IH.
Qed.

(** ... and leaves a string that ends with another character alone. *)
Lemma rstrip_stop p s c :
  Str.last s = Some c -> p c = false -> Str.rstrip_by p s = s.
Proof.
  revert c. induction s as [|x s IH]; intros c; simpl; [discriminate |].
  destruct (Str.last s) as [y|] eqn:Hl.
  - intros [= ->] Hc. rewrite (IH c eq_refl Hc).
    destruct s; [discriminate | reflexivity].
  - intros [= ->] Hc. rewrite (last_none _ Hl). simpl. now rewrite Hc.
Qed.

Lemma rstrip_keeps_head p c s :
  p c = false -> exists r, Str.rstrip_by p (String c s) = String c r.
Proof.
  intros Hc. simpl. rewrite Hc, andb_false_r. eauto.
Qed.

(** A string is stripped to nothing exactly when it is white space. *)
Lemma strip_empty_iff s :
  Str.is_empty (Str.strip s) = Str.all Char.is_space s.
Proof.
  unfold Str.strip.
  destruct (Str.all Char.is_space s) eqn:Hall.
  - now rewrite (lstrip_all _ _ Hall).
  - pose proof (lstrip_head Char.is_space s) as Hh.
    destruct (Str.lstrip_by Char.is_space s) as [|c r]; simpl in Hh; [congruence |].
    destruct (rstrip_keeps_head Char.is_space c r Hh) as (r' & ->). reflexivity.
Qed.

(** What [rstrip_by] leaves, if anything, ends with another character
    and begins as the string did. *)
Lemma rstrip_last p s :
  Str.rstrip_by p s <> "" ->
  exists c, Str.last (Str.rstrip_by p s) = Some c /\ p c = false.
Proof.
  induction s as [|x s IH]; simpl; [congruence |].
  destruct (Str.rstrip_by p s) as [|y r] eqn:Er; simpl.
  - destruct (p x) eqn:Hx; [congruence |]. intros _. simpl. eauto.
  - intros _. destruct IH as (c & Hl & Hc); [discriminate |].
    exists c. cbn [Str.last] in *. now rewrite Hl.
Qed.

Lemma rstrip_head p s :
  Str.rstrip_by p s <> "" -> Str.head (Str.rstrip_by p s) = Str.head s.
Proof.
  destruct s as [|x s]; simpl; [congruence |].
  destruct (Str.is_empty (Str.rstrip_by p s) && p x); [congruence | reflexivity].
Qed.

Lemma last_all p s c : Str.all p s = true -> Str.last s = Some c -> p c = true.
Proof.
  revert c. induction s as [|x s IH]; intros c; simpl; [discriminate |].
  intros [Hx Hs]%andb_prop. destruct (Str.last s) as [y|].
  - intros [= <-]. now apply IH.
  - now intros [= <-].
Qed.

Lemma last_cons_app x a c : Str.last (String x (a +:+ String c "")) = Some c.
Proof.
  change (String x (a +:+ String c "")) with (String x a +:+ String c "").
  now rewrite last_app.
Qed.

End StringFacts.

(** ** The instruction cleanup *)

Section Cleanup.

Implicit Types (s text : string) (c : ascii).

Lemma starts_clean_inv text :
  starts_clean text = true ->
  exists c r, text = String c r /\ Char.is_space c = false.
Proof.
  unfold starts_clean. destruct text as [|c r]; simpl; [discriminate |].
  intros H%negb_true_iff. eauto.
Qed.

Lemma ends_clean_inv text :
  ends_clean text = true ->
  exists c, Str.last text = Some c
            /\ Char.is_space c = false /\ Char.is_dot c = false.
Proof.
  unfold ends_clean. destruct (Str.last text) as [c|]; [| discriminate].
  intros [H1%negb_true_iff H2%negb_true_iff]%andb_prop. eauto.
Qed.

Lemma strip_clean text :
  starts_clean text = true -> ends_clean text = true -> Str.strip text = text.
Proof.
  intros (c & r & -> & Hc)%starts_clean_inv (c' & Hl & Hs & _)%ends_clean_inv.
  unfold Str.strip. rewrite (lstrip_stop _ _ _ Hc).
  now apply rstrip_stop with c'.
Qed.

Lemma strip_numbering_unnumbered text :
  starts_clean text = true -> unnumbered text = true ->
  strip_numbering text = text.
Proof.
  intros (c & r & -> & Hc)%starts_clean_inv. unfold unnumbered, strip_numbering.
  rewrite (lstrip_stop _ _ _ Hc).
  generalize (Str.lstrip_by Char.is_digit (String c r)). intros s2.
  destruct (Nat.eqb _ _); [reflexivity |].
  destruct s2 as [|d t]; [reflexivity |].
  cbn [orb Str.head]. intros ->%negb_true_iff. reflexivity.
Qed.

(** A text with clean ends and no numbering is left as it is. *)
Lemma clean_instruction_fixed text :
  starts_clean text = true -> ends_clean text = true -> unnumbered text = true ->
  clean_instruction text = Some text.
Proof.
  intros Hs He Hu. unfold clean_instruction, clean_text.
  rewrite (strip_clean _ Hs He), (strip_numbering_unnumbered _ Hs Hu).
  destruct (ends_clean_inv _ He) as (c & Hl & _ & Hd).
  unfold Str.rstrip_dots. rewrite (rstrip_stop _ _ _ Hl Hd).
  destruct (starts_clean_inv _ Hs) as (x & r & -> & _). reflexivity.
Qed.

(** The numbering prefix is removed as a whole. *)
Lemma strip_numbering_prefix ds ws text :
  Str.all Char.is_digit ds = true -> ds <> "" ->
  Str.all Char.is_space ws = true ->
  starts_clean text = true ->
  strip_numbering (ds +:+ "." +:+ ws +:+ text) = text.
Proof.
  intros Hds Hne Hws (c & r & -> & Hc)%starts_clean_inv.
  unfold strip_numbering.
  destruct ds as [|d ds']; [congruence |]. simpl in Hds.
  apply andb_prop in Hds as [Hd Hds'].
  change (String d ds' +:+ "." +:+ ws +:+ String c r)
    with (String d (ds' +:+ "." +:+ ws +:+ String c r)).
  rewrite (lstrip_stop Char.is_space d _ (digit_not_space _ Hd)).
  change (String d (ds' +:+ "." +:+ ws +:+ String c r))
    with (String d ds' +:+ String "." (ws +:+ String c r)).
  rewrite lstrip_app_all by (simpl; now rewrite Hd, Hds').
  rewrite (lstrip_stop Char.is_digit "." _ eq_refl).
  rewrite length_app_str. simpl String.length.
  match goal with
  | |- context [Nat.eqb ?n ?m] =>
      destruct (Nat.eqb_spec n m) as [E|_]; [simpl in E; lia |]
  end.
  change (Char.is_dot ".") with true. cbv iota.
  rewrite lstrip_app_all by assumption.
  now apply lstrip_stop.
Qed.

Lemma strip_start s : clean_start (Str.strip s).
Proof.
  unfold clean_start, Str.strip.
  destruct (Str.rstrip_by Char.is_space (Str.lstrip_by Char.is_space s)) eqn:E;
    [exact I |].
  rewrite <- E, rstrip_head by (rewrite E; discriminate).
  pose proof (lstrip_head Char.is_space s) as H.
  destruct (Str.head (Str.lstrip_by Char.is_space s)); [exact H | exact I].
Qed.

Lemma strip_numbering_start s : clean_start s -> clean_start (strip_numbering s).
Proof.
  intros Hs. unfold strip_numbering.
  destruct (Nat.eqb _ _); [exact Hs |].
  destruct (Str.lstrip_by Char.is_digit _) as [|c s3]; [exact Hs |].
  destruct (Char.is_dot c); [| exact Hs].
  unfold clean_start. pose proof (lstrip_head Char.is_space s3) as H.
  destruct (Str.head (Str.lstrip_by Char.is_space s3)); [exact H | exact I].
Qed.

(** A cleaned entry begins with a character other than white space and
    ends with a character other than the dot. *)
Lemma clean_instruction_shape inst s :
  clean_instruction inst = Some s ->
  starts_clean s = true
  /\ exists c, Str.last s = Some c /\ Char.is_dot c = false.
Proof.
  unfold clean_instruction, clean_text, Str.rstrip_dots.
  set (x := strip_numbering (Str.strip inst)).
  assert (Hx : clean_start x) by apply strip_numbering_start, strip_start.
  destruct (Str.is_empty (Str.rstrip_by Char.is_dot x)) eqn:E; [discriminate |].
  intros [= <-].
  assert (Hne : Str.rstrip_by Char.is_dot x <> "").
  { intros H. rewrite H in E. discriminate. }
  split; [| now apply rstrip_last].
  unfold starts_clean. rewrite rstrip_head by assumption.
  unfold clean_start in Hx. destruct (Str.head x) eqn:Eh.
  - now rewrite Hx.
  - destruct x; [| discriminate]. simpl in Hne. congruence.
Qed.

(** With that shape, a text that has no white space at its end and no
    numbering is left as it is. *)
Lemma clean_instruction_fixed_shape s c :
  starts_clean s = true -> Str.last s = Some c -> Char.is_dot c = false ->
  no_trailing_space s = true -> unnumbered s = true ->
  clean_instruction s = Some s.
Proof.
  intros Hs Hl Hd Hsp Hu. apply clean_instruction_fixed; try assumption.
  unfold ends_clean. unfold no_trailing_space in Hsp. rewrite Hl in *.
  now rewrite Hsp, Hd.
Qed.

End Cleanup.

(** C4, amended: an instruction entry made of optional white space,
    digits, a period, optional white space, a text and an optional final
    period is cleaned to exactly the text, provided the text is not empty,
    neither begins nor ends with white space and does not end with a
    period. *)
Theorem clean_numbered_entry (ws1 ds ws2 text p : string) :
  Str.all Char.is_space ws1 = true ->
  Str.all Char.is_digit ds = true -> ds <> "" ->
  Str.all Char.is_space ws2 = true ->
  p = "" \/ p = "." ->
  starts_clean text = true -> ends_clean text = true ->
  clean_instruction (ws1 +:+ ds +:+ "." +:+ ws2 +:+ text +:+ p) = Some text.
Proof.
  intros Hws1 Hds Hne Hws2 Hp Hs He.
  destruct (ends_clean_inv _ He) as (c & Hl & Hsp & Hdot).
  destruct (starts_clean_inv _ Hs) as (x & r & Etext & Hx).
  assert (Htp : Str.strip (ws1 +:+ ds +:+ "." +:+ ws2 +:+ text +:+ p)
                = ds +:+ "." +:+ ws2 +:+ text +:+ p).
  { unfold Str.strip. rewrite lstrip_app_all by assumption.
    destruct ds as [|d ds']; [congruence |].
    apply andb_prop in Hds as [Hd _].
    change (String d ds' +:+ "." +:+ ws2 +:+ text +:+ p)
      with (String d (ds' +:+ "." +:+ ws2 +:+ text +:+ p)).
    rewrite (lstrip_stop _ _ _ (digit_not_space _ Hd)).
    change (String d (ds' +:+ "." +:+ ws2 +:+ text +:+ p))
      with (String d ds' +:+ "." +:+ ws2 +:+ text +:+ p).
    rewrite <- !app_assoc_str.
    destruct Hp as [-> | ->].
    - rewrite app_empty_r. apply rstrip_stop with c; [| assumption].
      rewrite last_app; [assumption | subst text; discriminate].
    - apply rstrip_stop with "."%char; [| reflexivity].
      now rewrite last_app. }
  unfold clean_instruction, clean_text. rewrite Htp.
  assert (Hs' : starts_clean (text +:+ p) = true) by (subst text; exact Hs).
  rewrite (strip_numbering_prefix ds ws2 (text +:+ p) Hds Hne Hws2 Hs').
  assert (Hr : Str.rstrip_dots (text +:+ p) = text).
  { unfold Str.rstrip_dots. destruct Hp as [-> | ->].
    - rewrite app_empty_r. now apply rstrip_stop with c.
    - rewrite rstrip_app_all by reflexivity. now apply rstrip_stop with c. }
  rewrite Hr. subst text. reflexivity.
Qed.

(** The theorem at ["  12.  Run the script."]. *)
Lemma clean_numbered_entry_witness :
  clean_instruction ("  " +:+ "12" +:+ "." +:+ "  " +:+ "Run the script" +:+ ".")
  = Some "Run the script".
Proof.
  apply (clean_numbered_entry "  " "12" "  " "Run the script" ".");
    first [ reflexivity | discriminate | (right; reflexivity) ].
Defined.

(** C4 as stated fails: the entry ["1. Wait.."] has the stated form with
    the text ["Wait."] followed by a period, and is cleaned to ["Wait"],
    which is not the text (nor is it ["Wait.."], the text when the final
    period is counted with it). *)
Lemma clean_numbered_entry_counterexample :
  exists ws1 ds ws2 text p : string,
    Str.all Char.is_space ws1 = true
    /\ Str.all Char.is_digit ds = true /\ ds <> ""
    /\ Str.all Char.is_space ws2 = true
    /\ (p = "" \/ p = ".")
    /\ clean_instruction (ws1 +:+ ds +:+ "." +:+ ws2 +:+ text +:+ p) <> Some text.
Proof.
  exists "", "1", " ", "Wait.", ".".
  repeat split; try reflexivity; try discriminate; auto.
Qed.

(** ** The filename validator *)

Section Filenames.

Implicit Types (b filename pre : string).

Lemma filename_re_match_allowed b :
  b <> "" -> Str.all Char.is_allowed b = true -> filename_re_match b = true.
Proof.
  intros Hne Hall. unfold filename_re_match.
  rewrite (lstrip_all _ _ Hall).
  destruct b; [congruence | reflexivity].
Qed.

Lemma filename_re_match_inv b :
  filename_re_match b = true ->
  exists pre, pre <> "" /\ Str.all Char.is_allowed pre = true
              /\ (b = pre \/ b = pre +:+ String Char.newline "").
Proof.
  unfold filename_re_match.
  destruct (lstrip_split Char.is_allowed b) as (pre & Hb & Hpre).
  intros [Hlen Hrest]%andb_prop.
  exists pre. split; [| split; [assumption |]].
  - intros ->. simpl in Hb. rewrite <- Hb in Hlen.
    rewrite Nat.eqb_refl in Hlen. discriminate.
  - apply orb_prop in Hrest as [E%String.eqb_eq | E%String.eqb_eq];
      rewrite E in Hb.
    + left. now rewrite app_empty_r in Hb.
    + right. exact Hb.
Qed.

Lemma sanitize_allowed c : Char.is_allowed (sanitize_char c) = true.
Proof.
  unfold sanitize_char. destruct (Char.is_allowed c) eqn:E; [exact E | reflexivity].
Qed.

Lemma sanitize_all b : Str.all Char.is_allowed (Str.map sanitize_char b) = true.
Proof.
  induction b as [|c b IH]; simpl; [reflexivity |].
  now rewrite sanitize_allowed, IH.
Qed.

Lemma sanitize_length b : String.length (Str.map sanitize_char b) = String.length b.
Proof. induction b as [|c b IH]; simpl; congruence. Qed.

End Filenames.

(** C6, amended: a filename whose base name is not empty and made of
    characters of [[a-zA-Z0-9_.-]] only is accepted with its base name
    unchanged.  A filename whose base name is empty, or holds another
    character and is not a run of allowed characters closed by a single
    newline, is refused with the base name in which every other character
    is replaced by an underscore; the suggestion has the length of the
    base name and allowed characters only.  ["bad file!.yaml"] gives
    ["bad_file_.yaml"]. *)
Theorem validate_filename_spec (filename : string) :
  (basename filename <> "" ->
   Str.all Char.is_allowed (basename filename) = true ->
   validate_filename filename = (true, basename filename))
  /\ (basename filename = ""
      \/ (Str.all Char.is_allowed (basename filename) = false
          /\ forall pre, pre <> "" -> Str.all Char.is_allowed pre = true ->
                         basename filename <> pre +:+ String Char.newline "") ->
      validate_filename filename
      = (false, Str.map sanitize_char (basename filename))
      /\ String.length (Str.map sanitize_char (basename filename))
         = String.length (basename filename)
      /\ Str.all Char.is_allowed (Str.map sanitize_char (basename filename)) = true)
  /\ validate_filename "bad file!.yaml" = (false, "bad_file_.yaml").
Proof.
  split; [| split; [| reflexivity]].
  - intros Hne Hall. unfold validate_filename.
    now rewrite filename_re_match_allowed.
  - intros H. split; [| split; [apply sanitize_length | apply sanitize_all]].
    unfold validate_filename.
    destruct (filename_re_match (basename filename)) eqn:Hm; [| reflexivity].
    exfalso. apply filename_re_match_inv in Hm as (pre & Hne & Hpre & Hb).
    destruct H as [E | [Hall Hnl]].
    + rewrite E in Hb. destruct Hb as [<- | Hb]; [congruence |].
      destruct pre; [congruence | discriminate].
    + destruct Hb as [E | E]; [congruence |]. now apply (Hnl pre).
Qed.

(** The theorem at an accepted and at a refused filename. *)
Lemma validate_filename_spec_witness :
  validate_filename "submissions/paper-1_v2.yaml" = (true, "paper-1_v2.yaml")
  /\ validate_filename "submissions/my paper (v2).yaml"
     = (false, "my_paper__v2_.yaml").
Proof.
  split.
  - apply (proj1 (validate_filename_spec "submissions/paper-1_v2.yaml"));
      [discriminate | reflexivity].
  - apply (proj1 (proj2 (validate_filename_spec "submissions/my paper (v2).yaml"))).
    right. split; [reflexivity |].
    intros pre _ _ E.
    assert (H : Str.last ("my paper (v2).yaml") = Str.last (pre +:+ String Char.newline ""))
      by (simpl basename in E; now rewrite <- E).
    rewrite last_app in H by discriminate. discriminate H.
Defined.

(** C6 as stated fails on an empty base name: every character of the base
    name of ["submissions/"] is allowed, there is none, and the name is
    refused. *)
Lemma validate_filename_counterexample :
  basename "submissions/" = ""
  /\ Str.all Char.is_allowed (basename "submissions/") = true
  /\ validate_filename "submissions/" = (false, "").
Proof. repeat split. Qed.

(** What the amended statement leaves out: [$] also matches before a
    final newline, so such a base name is accepted as it is. *)
Lemma validate_filename_final_newline :
  validate_filename ("notes.yaml" +:+ String Char.newline "")
  = (true, "notes.yaml" +:+ String Char.newline "")
  /\ Str.all Char.is_allowed ("notes.yaml" +:+ String Char.newline "") = false.
Proof. split; reflexivity. Qed.

(** ** The [str] of values that are not strings *)

Section Repr.

Lemma string_of_uint_digits d :
  Str.all Char.is_digit (NilEmpty.string_of_uint d) = true.
Proof. induction d; simpl; auto. Qed.

Lemma digits_shape s :
  s <> "" -> Str.all Char.is_digit s = true ->
  starts_clean s = true /\ exists c, Str.last s = Some c /\ Char.is_dot c = false.
Proof.
  intros Hne Hall. split.
  - destruct s as [|x r]; [congruence |]. simpl in Hall.
    apply andb_prop in Hall as [Hx _].
    unfold starts_clean. simpl. now rewrite (digit_not_space _ Hx).
  - destruct (Str.last s) as [c|] eqn:Hl.
    + exists c. split; [reflexivity |].
      apply digit_not_dot. now apply last_all with s.
    + apply last_none in Hl. congruence.
Qed.

Lemma repr_int_shape z :
  starts_clean (Py.repr_int z) = true
  /\ exists c, Str.last (Py.repr_int z) = Some c /\ Char.is_dot c = false.
Proof.
  unfold Py.repr_int. destruct z as [|p|p]; simpl.
  - split; [reflexivity | eauto].
  - apply digits_shape; [| apply string_of_uint_digits].
    pose proof (DecimalPos.Unsigned.to_uint_nonnil p). destruct (Pos.to_uint p); simpl; congruence.
  - split; [reflexivity |].
    destruct (digits_shape (NilEmpty.string_of_uint (Pos.to_uint p)))
      as (_ & c & Hl & Hc); [| apply string_of_uint_digits |].
    + pose proof (DecimalPos.Unsigned.to_uint_nonnil p).
      destruct (Pos.to_uint p); simpl; congruence.
    + exists c. split; [| exact Hc]. now rewrite Hl.
Qed.

(** The [str] of a value that is not a string begins with a character
    other than white space and ends with a character other than the dot. *)
Lemma str_shape v :
  Py.is_str v = false ->
  starts_clean (Py.str v) = true
  /\ exists c, Str.last (Py.str v) = Some c /\ Char.is_dot c = false.
Proof.
  destruct v as [|b|z|s|l|d]; try discriminate; intros _; cbn [Py.str Py.repr].
  - split; [reflexivity | eexists; split; reflexivity].
  - destruct b; (split; [reflexivity | eexists; split; reflexivity]).
  - apply repr_int_shape.
  - split; [reflexivity |]. exists "]"%char. split; [| reflexivity].
    apply last_cons_app.
  - split; [reflexivity |]. exists "}"%char. split; [| reflexivity].
    apply last_cons_app.
Qed.

End Repr.

(** ** The record transformation *)

Section Record.

Implicit Types (d data r : dict) (c claim v : pyval) (cs claims : list pyval).

Lemma clean_loop_spec (insts acc : list pyval) :
  clean_loop insts acc = acc ++ flat_map clean_entry insts.
Proof.
  revert acc. induction insts as [|inst insts IH]; intros acc; simpl.
  - now rewrite app_nil_r.
  - destruct inst; simpl; try (rewrite IH, <- app_assoc; reflexivity).
    destruct (clean_instruction s); rewrite IH; [| reflexivity].
    now rewrite <- app_assoc.
Qed.

(** Every cleaned entry is a string. *)
Lemma clean_entry_strings (insts : list pyval) :
  Forall (fun v => Py.is_str v = true) (flat_map clean_entry insts).
Proof.
  induction insts as [|inst insts IH]; simpl; [constructor |].
  apply Forall_app. split; [| assumption].
  destruct inst; simpl; repeat constructor.
  destruct (clean_instruction s); repeat constructor.
Qed.

Lemma fix_claim_dict d :
  fix_claim (PDict d)
  = (insts ← Py.iter (instructions_of d);
     Ok (PDict [ (KStr "claim", Py.get_or d "claim" (PStr ""));
                 (KStr "instruction", PList (flat_map clean_entry insts)) ])).
Proof.
  unfold fix_claim, instructions_of. simpl.
  destruct (Py.iter _); simpl; [| reflexivity].
  now rewrite clean_loop_spec.
Qed.

Lemma fix_claim_inv c c' :
  fix_claim c = Ok c' ->
  exists d insts,
    c = PDict d /\ Py.iter (instructions_of d) = Ok insts
    /\ c' = PDict [ (KStr "claim", Py.get_or d "claim" (PStr ""));
                    (KStr "instruction", PList (flat_map clean_entry insts)) ].
Proof.
  destruct c as [| | | | |d]; try discriminate.
  rewrite fix_claim_dict. destruct (Py.iter (instructions_of d)) as [insts|] eqn:E;
    simpl; [| discriminate].
  intros [= <-]. eauto.
Qed.

Lemma claims_loop_spec d cs acc :
  claims_loop cs (fixed_template d acc)
  = (cs' ← map_result fix_claim cs; Ok (fixed_template d (acc ++ cs'))).
Proof.
  revert acc. induction cs as [|c cs IH]; intros acc.
  - simpl. now rewrite app_nil_r.
  - cbn [claims_loop map_result].
    destruct (fix_claim c) as [c'|e]; [| reflexivity].
    cbn [mbind result_bind].
    change (Py.append_at (fixed_template d acc) "claims" c')
      with (fixed_template d (acc ++ [c'])).
    rewrite IH. destruct (map_result fix_claim cs); [| reflexivity].
    cbn [mbind result_bind]. now rewrite <- app_assoc.
Qed.

(** [fix_record] builds the template around the fixed claims. *)
Lemma fix_record_spec d :
  fix_record (PDict d) = (cs' ← fixed_claims d; Ok (fixed_template d cs')).
Proof.
  unfold fix_record, fixed_claims.
  change [ (KStr "username", Py.get_or d "username" (PStr ""));
           (KStr "paper_title", Py.get_or d "paper_title" (PStr ""));
           (KStr "paper_pdf", Py.get_or d "paper_pdf" (PStr ""));
           (KStr "identifier", Py.get_or d "identifier" (PStr ""));
           (KStr "claim_type", PStr "custom_code");
           (KStr "code_url", Py.get_or d "code_url" (PStr "NOT_SPECIFIED"));
           (KStr "data_url", Py.get_or d "data_url" (PStr "NOT_SPECIFIED"));
           (KStr "claims", PList []);
           (KStr "non_reproducible_claims",
             Py.get_or d "non_reproducible_claims" (PList [])) ]
    with (fixed_template d []).
  destruct (Py.contains d "claims" && Py.truthy (Py.get_or d "claims" PNone));
    [| reflexivity].
  destruct (Py.iter (Py.get_or d "claims" PNone)) as [cs|]; simpl; [| reflexivity].
  apply claims_loop_spec.
Qed.

Lemma fix_record_inv (data : pyval) r :
  fix_record data = Ok r ->
  exists d cs', data = PDict d /\ fixed_claims d = Ok cs' /\ r = fixed_template d cs'.
Proof.
  destruct data as [| | | | |d]; try discriminate.
  rewrite fix_record_spec. destruct (fixed_claims d) as [cs'|] eqn:E; simpl;
    [| discriminate].
  intros [= <-]. eauto.
Qed.

Lemma map_result_Forall2 {A B : Type} (f : A -> result B) l l' :
  map_result f l = Ok l' -> Forall2 (fun x y => f x = Ok y) l l'.
Proof.
  revert l'. induction l as [|x l IH]; intros l'; simpl.
  - intros [= <-]. constructor.
  - destruct (f x) as [y|] eqn:Ex; simpl; [| discriminate].
    destruct (map_result f l) as [l''|]; simpl; [| discriminate].
    intros [= <-]. constructor; auto.
Qed.

Lemma map_result_fixed {A : Type} (f : A -> result A) l :
  Forall (fun x => f x = Ok x) l -> map_result f l = Ok l.
Proof.
  induction 1 as [|x l Hx _ IH]; simpl; [reflexivity |].
  now rewrite Hx, IH.
Qed.

Lemma map_result_raise {A B : Type} (f : A -> result B) l x e :
  In x l -> f x = Raise e -> exists e', map_result f l = Raise e'.
Proof.
  induction l as [|y l IH]; simpl; [tauto |].
  intros [-> | Hin] Hx.
  - rewrite Hx. simpl. eauto.
  - destruct (f y); simpl; [| eauto].
    destruct (IH Hin Hx) as (e' & ->). simpl. eauto.
Qed.

(** The claims of a record that holds a non-empty list of claims. *)
Lemma fixed_claims_list d cs :
  Py.lookup d "claims" = Some (PList cs) ->
  fixed_claims d = map_result fix_claim cs.
Proof.
  intros H. unfold fixed_claims, Py.contains, Py.get_or. rewrite H.
  destruct cs; reflexivity.
Qed.

Lemma fixed_claims_inv d cs' :
  fixed_claims d = Ok cs' ->
  exists cs, Forall2 (fun x y => fix_claim x = Ok y) cs cs'.
Proof.
  unfold fixed_claims. destruct (_ && _).
  - destruct (Py.iter _) as [cs|]; [| discriminate].
    intros H. exists cs. now apply map_result_Forall2.
  - intros [= <-]. exists []. constructor.
Qed.

(** Every claim of the output is the image of a claim. *)
Lemma fixed_claims_image d cs' y :
  fixed_claims d = Ok cs' -> In y cs' -> exists x, fix_claim x = Ok y.
Proof.
  intros (cs & Hall)%fixed_claims_inv. induction Hall as [|x y' cs cs' Hxy _ IH].
  - intros [].
  - intros [<- | Hin]; eauto.
Qed.

Lemma clean_entries_fixed (l : list pyval) :
  Forall (fun v => Py.is_str v = true) l ->
  (forall s, In (PStr s) l -> clean_instruction s = Some s) ->
  flat_map clean_entry l = l.
Proof.
  induction 1 as [|v l Hv _ IH]; intros Hclean; [reflexivity |].
  destruct v as [| | |s| |]; try discriminate.
  cbn [flat_map clean_entry]. rewrite (Hclean s) by (now left).
  cbn [app]. f_equal. apply IH. intros s' Hs'. apply Hclean. now right.
Qed.

(** The shape of every entry of a fixed claim. *)
Lemma clean_entry_shape (insts : list pyval) s :
  In (PStr s) (flat_map clean_entry insts) ->
  starts_clean s = true
  /\ exists x : ascii, Str.last s = Some x /\ Char.is_dot x = false.
Proof.
  intros (inst & _ & Hin)%in_flat_map.
  destruct (Py.is_str inst) eqn:Es.
  - destruct inst as [| | |t| |]; try discriminate. cbn [clean_entry] in Hin.
    destruct (clean_instruction t) as [s'|] eqn:E; [| destruct Hin].
    destruct Hin as [[= <-] | []]. exact (clean_instruction_shape _ _ E).
  - assert (E : clean_entry inst = [PStr (Py.str inst)])
      by (destruct inst; try discriminate; reflexivity).
    rewrite E in Hin. destruct Hin as [Hin | []].
    injection Hin as <-. now apply str_shape.
Qed.

(** A fixed claim whose entries have no white space at their end and no
    numbering is fixed to itself. *)
Lemma fix_claim_fixed c c' :
  fix_claim c = Ok c' ->
  (forall s, In (PStr s) (claim_instructions c') ->
             no_trailing_space s = true /\ unnumbered s = true) ->
  fix_claim c' = Ok c'.
Proof.
  intros (d & insts & _ & _ & ->)%fix_claim_inv Hclean.
  rewrite fix_claim_dict.
  change (instructions_of _) with (PList (flat_map clean_entry insts)).
  cbn [Py.iter mbind result_bind].
  rewrite (clean_entries_fixed (flat_map clean_entry insts));
    [reflexivity | apply clean_entry_strings |].
  intros s Hs.
  destruct (clean_entry_shape _ _ Hs) as (Hstart & x & Hl & Hd).
  destruct (Hclean s Hs) as (Hsp & Hu).
  now apply clean_instruction_fixed_shape with x.
Qed.

Lemma Forall2_nth_error {A B : Type} (R : A -> B -> Prop) l l' i x :
  Forall2 R l l' -> nth_error l i = Some x ->
  exists y, nth_error l' i = Some y /\ R x y.
Proof.
  intros Hall. revert i. induction Hall as [|a b l l' Hab _ IH]; intros [|i]; simpl;
    try discriminate.
  - intros [= <-]. eauto.
  - apply IH.
Qed.

(** The claim fixed from a claim whose instruction is one string. *)
Lemma fix_claim_single d s :
  Py.lookup d "instruction" = Some (PStr s) ->
  fix_claim (PDict d)
  = Ok (PDict [ (KStr "claim", Py.get_or d "claim" (PStr ""));
                (KStr "instruction",
                  PList (if Str.is_empty (clean_text s) then []
                         else [PStr (clean_text s)])) ]).
Proof.
  intros H. rewrite fix_claim_dict. unfold instructions_of, Py.get_or. rewrite H.
  cbn [Py.is_str Py.iter mbind result_bind flat_map clean_entry].
  unfold clean_instruction. destruct (Str.is_empty (clean_text s)); reflexivity.
Qed.

End Record.

(** C3, amended: when the transformation of [fix_submission_file]
    produces a record, applying it to that record produces the same record
    again, provided no instruction entry of that record ends with white
    space or still begins with a numbering prefix (digits and a period,
    after optional white space). *)
Theorem fix_record_idempotent (data : pyval) (fixed_data : dict) :
  fix_record data = Ok fixed_data ->
  (forall s, In (PStr s) (record_instructions fixed_data) ->
             no_trailing_space s = true /\ unnumbered s = true) ->
  fix_record (PDict fixed_data) = Ok fixed_data.
Proof.
  intros (d & cs' & _ & Hcs & ->)%fix_record_inv Hclean.
  rewrite fix_record_spec.
  assert (Hfix : fixed_claims (fixed_template d cs') = Ok cs').
  { change (fixed_claims (fixed_template d cs'))
      with (if Py.truthy (PList cs')
            then map_result fix_claim cs' else Ok []).
    assert (Hmap : map_result fix_claim cs' = Ok cs');
      [| destruct cs'; [reflexivity | exact Hmap]].
    apply map_result_fixed. apply Forall_forall. intros c' Hin%list_elem_of_In.
    destruct (fixed_claims_image _ _ _ Hcs Hin) as (c & Hc).
    apply (fix_claim_fixed c c' Hc). intros s Hs. apply Hclean.
    change (record_instructions (fixed_template d cs'))
      with (flat_map claim_instructions cs').
    apply in_flat_map. eauto. }
  rewrite Hfix. reflexivity.
Qed.

(** The theorem at a record with a numbered instruction and an
    instruction that is not a string. *)
Lemma fix_record_idempotent_witness :
  fix_record
    (PDict (fixed_template [(KStr "username", PStr "ada")]
              [PDict [ (KStr "claim", PStr "X");
                       (KStr "instruction", PList [PStr "Run make"; PStr "None"]) ]]))
  = Ok (fixed_template [(KStr "username", PStr "ada")]
          [PDict [ (KStr "claim", PStr "X");
                   (KStr "instruction", PList [PStr "Run make"; PStr "None"]) ]]).
Proof.
  apply (fix_record_idempotent
           (PDict [ (KStr "username", PStr "ada");
                    (KStr "claims",
                      PList [PDict [ (KStr "claim", PStr "X");
                                     (KStr "instruction",
                                       PList [PStr " 1. Run make."; PNone]) ]]) ])).
  - reflexivity.
  - intros s [[= <-] | [[= <-] | []]]; split; reflexivity.
Defined.

(** C3 as stated fails: the instruction ["1. 2. Install"] is cleaned to
    ["2. Install"] by the first pass and to ["Install"] by the second. *)
Lemma fix_record_idempotent_counterexample :
  exists once twice : dict,
    fix_record
      (PDict [(KStr "claims",
               PList [PDict [ (KStr "claim", PStr "X");
                              (KStr "instruction", PList [PStr "1. 2. Install"]) ]])])
    = Ok once
    /\ fix_record (PDict once) = Ok twice
    /\ record_instructions once = [PStr "2. Install"]
    /\ record_instructions twice = [PStr "Install"]
    /\ once <> twice.
Proof.
  eexists _, _. split; [reflexivity |]. split; [reflexivity |].
  split; [reflexivity |]. split; [reflexivity |]. discriminate.
Qed.

(** C5, amended: when the instruction field of a claim is a single
    string, the claim at the same position of the produced record has an
    instruction field that is the one-element sequence holding the cleaned
    form of the string when that form is not empty, and the empty sequence
    when it is empty. *)
Theorem single_string_instruction
    (data : dict) (claims : list pyval) (i : nat) (claim : dict) (s : string)
    (fixed_data : dict) :
  Py.lookup data "claims" = Some (PList claims) ->
  nth_error claims i = Some (PDict claim) ->
  Py.lookup claim "instruction" = Some (PStr s) ->
  fix_record (PDict data) = Ok fixed_data ->
  exists fixed_claims fixed_claim,
    Py.lookup fixed_data "claims" = Some (PList fixed_claims)
    /\ nth_error fixed_claims i = Some (PDict fixed_claim)
    /\ Py.lookup fixed_claim "instruction"
       = Some (PList (if Str.is_empty (clean_text s) then []
                      else [PStr (clean_text s)])).
Proof.
  intros Hclaims Hi Hs (d & cs' & [= <-] & Hcs & ->)%fix_record_inv.
  rewrite (fixed_claims_list _ _ Hclaims) in Hcs.
  apply map_result_Forall2 in Hcs.
  destruct (Forall2_nth_error _ _ _ _ _ Hcs Hi) as (y & Hy & Hxy).
  rewrite (fix_claim_single _ _ Hs) in Hxy. injection Hxy as <-.
  eexists cs', _. split; [reflexivity |]. split; [exact Hy | reflexivity].
Qed.

(** The theorem at the end-to-end example of the specification. *)
Lemma single_string_instruction_witness :
  exists fixed_claims fixed_claim,
    Py.lookup
      (fixed_template [] [PDict [ (KStr "claim", PStr "X");
                                  (KStr "instruction", PList [PStr "Do thing"]) ]])
      "claims" = Some (PList fixed_claims)
    /\ nth_error fixed_claims 0 = Some (PDict fixed_claim)
    /\ Py.lookup fixed_claim "instruction" = Some (PList [PStr "Do thing"]).
Proof.
  apply (single_string_instruction
           [(KStr "claims",
             PList [PDict [(KStr "claim", PStr "X");
                           (KStr "instruction", PStr "1. Do thing.")]])]
           [PDict [(KStr "claim", PStr "X"); (KStr "instruction", PStr "1. Do thing.")]]
           0
           [(KStr "claim", PStr "X"); (KStr "instruction", PStr "1. Do thing.")]
           "1. Do thing.");
    reflexivity.
Defined.

(** C5 as stated fails: the instruction ["1."] is a string of length 2,
    its cleaned form is empty, and the instruction field produced is the
    empty sequence. *)
Lemma single_string_instruction_counterexample :
  String.length "1." = 2
  /\ fix_record
       (PDict [(KStr "claims",
                PList [PDict [(KStr "claim", PStr "X"); (KStr "instruction", PStr "1.")]])])
     = Ok (fixed_template []
             [PDict [(KStr "claim", PStr "X"); (KStr "instruction", PList [])]])
  /\ forall x : pyval, PList [] <> PList [x].
Proof. split; [reflexivity |]. split; [reflexivity |]. discriminate. Qed.

(** ** Dictionaries *)

Section Dictionaries.

Implicit Types (d : dict) (k : string) (v : pyval).

Lemma lookup_set d k v : Py.lookup (Py.set d k v) k = Some v.
Proof.
  induction d as [|[k' v'] d IH]; simpl.
  - now rewrite String.eqb_refl.
  - destruct (Py.key_is k k') eqn:E; simpl; rewrite E; [reflexivity | exact IH].
Qed.

Lemma key_is_other k k' key :
  k <> k' -> Py.key_is k key = true -> Py.key_is k' key = false.
Proof.
  destruct key; simpl; try discriminate.
  intros Hne ->%String.eqb_eq. now apply String.eqb_neq.
Qed.

Lemma lookup_set_other d k k' v :
  k <> k' -> Py.lookup (Py.set d k v) k' = Py.lookup d k'.
Proof.
  intros Hne. induction d as [|[key v'] d IH]; simpl.
  - now apply String.eqb_neq in Hne as ->.
  - destruct (Py.key_is k key) eqn:E; simpl.
    + now rewrite (key_is_other _ _ _ Hne E).
    + now rewrite IH.
Qed.

End Dictionaries.

(** ** The scripts *)

Section ScriptFacts.

Context (yaml_safe_load json_load : string -> result pyval).
Context (yaml_dump : pyval -> string).
Context (glob : world -> string -> string -> list Path).
Context (mkdir_denied : world -> string -> bool).

Local Abbreviation load := (load_submission yaml_safe_load json_load).
Local Abbreviation fix_body :=
  (fix_submission_body yaml_safe_load json_load yaml_dump).
Local Abbreviation fix_file :=
  (fix_submission_file yaml_safe_load json_load yaml_dump).
Local Abbreviation loop := (batch_loop yaml_safe_load json_load yaml_dump).
Local Abbreviation batch :=
  (batch_fix_submissions yaml_safe_load json_load yaml_dump glob mkdir_denied).
Local Abbreviation run := (batch_run yaml_safe_load json_load yaml_dump).
Local Abbreviation fix_url := (fix_code_url yaml_safe_load yaml_dump).

Implicit Types (w : world) (msgs : list message) (e : exn).

Lemma emit_nil w : emit w [] = w.
Proof. destruct w. unfold emit. simpl. now rewrite app_nil_r. Qed.

Lemma emit_emit w msgs msgs' : emit (emit w msgs) msgs' = emit w (msgs ++ msgs').
Proof. unfold emit. simpl. now rewrite app_assoc. Qed.

Lemma print_emit m w : print m w = (Ok tt, emit w [m]).
Proof. reflexivity. Qed.

(** Loading reads the world and leaves it as it is. *)
Lemma load_submission_world input_file w :
  snd (load input_file w) = w.
Proof.
  unfold load_submission, mbind, io_bind, read_file, lift.
  destruct (files w !! input_file) as [text|]; [| reflexivity].
  destruct (yaml_safe_load text) as [data|[]]; reflexivity.
Qed.

(** The validation of one field only prints. *)
Lemma check_url_emit fixed_data field w :
  exists r msgs, check_url fixed_data field w = (r, emit w msgs).
Proof.
  unfold check_url.
  destruct (_ && _).
  - destruct (Py.get_or fixed_data field PNone);
      try (exists (Raise AttributeError), []; now rewrite emit_nil).
    destruct (_ && _).
    + eexists _, _. apply print_emit.
    + exists (Ok tt), []. now rewrite emit_nil.
  - exists (Ok tt), []. now rewrite emit_nil.
Qed.

Lemma for_each_emit {A : Type} (body : A -> io unit) (l : list A) w :
  (forall x w, exists r msgs, body x w = (r, emit w msgs)) ->
  exists r msgs, for_each l body w = (r, emit w msgs).
Proof.
  intros Hbody. revert w. induction l as [|x l IH]; intros w; simpl.
  - exists (Ok tt), []. now rewrite emit_nil.
  - unfold mbind, io_bind. destruct (Hbody x w) as (r & msgs & ->).
    destruct r as [[]|e]; [| eauto].
    destruct (IH (emit w msgs)) as (r' & msgs' & ->).
    rewrite emit_emit. eauto.
Qed.

(** Under [url_value_ok] the validation of a field returns, and warns
    about a malformed URL. *)
Lemma check_url_ok fixed_data field w :
  url_value_ok (Py.get_or fixed_data field PNone) = true ->
  exists msgs,
    check_url fixed_data field w = (Ok tt, emit w msgs)
    /\ Forall (fun m => m = MsgUrlWarning field) msgs
    /\ (forall url, Py.lookup fixed_data field = Some (PStr url) ->
                    malformed_url url = true -> msgs = [MsgUrlWarning field]).
Proof.
  unfold check_url, url_value_ok, Py.contains, Py.get_or, malformed_url.
  destruct (Py.lookup fixed_data field) as [v|]; cbn [andb].
  - destruct v as [| | |url| |]; cbn [Py.is_str orb]; intros Hok.
    all: try (destruct (Py.truthy _); [discriminate Hok |];
              exists []; rewrite emit_nil;
              split; [reflexivity | split; [constructor | intros ? [=]]]).
    cbn [Py.truthy].
    destruct (Str.is_empty url) eqn:E1; cbn [negb andb];
      [| destruct (String.eqb url "NOT_SPECIFIED") eqn:E2; cbn [negb andb];
         [| destruct (Str.startswith url "http://") eqn:E3; cbn [negb andb orb];
            [| destruct (Str.startswith url "https://") eqn:E4; cbn [negb andb orb]]]].
    5: { exists [MsgUrlWarning field].
         split; [reflexivity | split; [repeat constructor | reflexivity]]. }
    all: exists []; rewrite emit_nil;
      (split; [reflexivity | split; [constructor |]]);
      intros ? [= <-]; rewrite ?E1, ?E2, ?E3, ?E4; discriminate.
  - intros _. exists []. rewrite emit_nil.
    split; [reflexivity | split; [constructor | discriminate]].
Qed.

Lemma check_urls_ok fixed_data (fields : list string) w :
  (forall f, In f fields -> url_value_ok (Py.get_or fixed_data f PNone) = true) ->
  exists msgs,
    for_each fields (check_url fixed_data) w = (Ok tt, emit w msgs)
    /\ Forall (fun m => exists f, m = MsgUrlWarning f) msgs
    /\ (forall f url, In f fields -> Py.lookup fixed_data f = Some (PStr url) ->
                      malformed_url url = true -> In (MsgUrlWarning f) msgs).
Proof.
  revert w. induction fields as [|f fields IH]; intros w Hok.
  - exists []. rewrite emit_nil. split; [reflexivity | split; [constructor |]].
    intros ? ? [].
  - destruct (check_url_ok fixed_data f w) as (msgs & Hrun & Hall & Hwarn);
      [apply Hok; now left |].
    destruct (IH (emit w msgs)) as (msgs' & Hrun' & Hall' & Hwarn');
      [intros; apply Hok; now right |].
    exists (msgs ++ msgs'). split; [| split].
    + cbn [for_each]. unfold mbind, io_bind. rewrite Hrun, Hrun'.
      now rewrite emit_emit.
    + apply Forall_app. split; [| assumption].
      eapply Forall_impl; [exact Hall |]. cbn beta. eauto.
    + intros f' url [<- | Hin] Hl Hm; apply in_or_app.
      * left. rewrite (Hwarn url Hl Hm). now left.
      * right. eauto.
Qed.

(** The [try] block, step by step. *)
Lemma fix_body_run input_file output_file w :
  fix_body input_file output_file w
  = match fst (load input_file w) with
    | Raise e => (Raise e, w)
    | Ok data =>
        match fix_record data with
        | Raise e => (Raise e, w)
        | Ok fixed_data =>
            match for_each url_fields (check_url fixed_data) w with
            | (Raise e, w1) => (Raise e, w1)
            | (Ok _, w1) =>
                if decide (output_file ∈ write_protected w1) then (Raise OSError, w1)
                else (Ok true,
                      emit (written w1 output_file (yaml_dump (PDict fixed_data)))
                        [MsgFixed input_file])
            end
        end
    end.
Proof.
  unfold fix_submission_body. unfold mbind at 1. unfold io_bind at 1.
  pose proof (load_submission_world input_file w) as Hw.
  destruct (load input_file w) as [[data|e] w0]; simpl in Hw; subst w0;
    [| reflexivity].
  cbn [fst]. unfold mbind at 1. unfold io_bind at 1. unfold lift at 1.
  destruct (fix_record data) as [fixed_data|e]; [| reflexivity].
  unfold mbind at 1. unfold io_bind at 1.
  destruct (for_each url_fields (check_url fixed_data) w) as [[[]|e] w1];
    [| reflexivity].
  unfold mbind, io_bind, write_file.
  destruct (decide (output_file ∈ write_protected w1)); reflexivity.
Qed.

(** What the [except] clause makes of the [try] block. *)
Lemma fix_file_run input_file output_file w :
  fix_file input_file output_file w
  = match fix_body input_file (target input_file output_file) w with
    | (Ok b, w') => (Ok b, w')
    | (Raise e, w') => (Ok false, emit w' [MsgErrorFixing input_file e])
    end.
Proof.
  unfold fix_submission_file, try_except, target.
  destruct (fix_body _ _ w) as [[b|e] w']; reflexivity.
Qed.

(** A claim whose instruction is a scalar cannot be fixed. *)
Lemma fix_claim_scalar (c : dict) (v : pyval) :
  Py.lookup c "instruction" = Some v -> is_scalar v = true ->
  fix_claim (PDict c) = Raise TypeError.
Proof.
  intros Hv Hs. rewrite fix_claim_dict. unfold instructions_of, Py.get_or.
  rewrite Hv. destruct v; try discriminate; reflexivity.
Qed.

(** When the transformation raises, the file is reported and left alone. *)
Lemma fix_file_transform_error input_file output_file w data e :
  fst (load input_file w) = Ok data -> fix_record data = Raise e ->
  fix_file input_file output_file w
  = (Ok false, emit w [MsgErrorFixing input_file e]).
Proof.
  intros Hload Hfix. rewrite fix_file_run, fix_body_run, Hload, Hfix. reflexivity.
Qed.

(** C10: when some claim of the input record has a scalar for its
    instruction field (a number, a boolean, [None]), [fix_submission_file]
    catches the error and returns [False]; it only prints the error with
    the name of the input file, and no file is written. *)
Theorem scalar_instruction_fails
    (input_file : string) (output_file : option string) (w : world)
    (data : dict) (claims : list pyval) (claim : dict) (v : pyval) :
  fst (load input_file w) = Ok (PDict data) ->
  Py.lookup data "claims" = Some (PList claims) ->
  In (PDict claim) claims ->
  Py.lookup claim "instruction" = Some v ->
  is_scalar v = true ->
  exists e w',
    fix_file input_file output_file w = (Ok false, w')
    /\ files w' = files w
    /\ stdout w' = stdout w ++ [MsgErrorFixing input_file e].
Proof.
  intros Hload Hclaims Hin Hv Hs.
  destruct (map_result_raise fix_claim claims (PDict claim) TypeError Hin
              (fix_claim_scalar _ _ Hv Hs)) as (e & He).
  exists e, (emit w [MsgErrorFixing input_file e]).
  split; [| split; reflexivity].
  apply fix_file_transform_error with (PDict data); [exact Hload |].
  rewrite fix_record_spec, (fixed_claims_list _ _ Hclaims), He. reflexivity.
Qed.

(** C8, amended: take a record whose claims are fixed without error and
    whose three URL fields each hold a string or a false value, and a
    target that can be written.  If one of the URL fields holds a string
    that is not empty, not the sentinel and starts with neither [http://]
    nor [https://], then [fix_submission_file] prints a warning for that
    field and nothing but warnings before it writes the fixed record to
    the target and returns [True]. *)
Theorem url_warning_not_fatal
    (input_file : string) (output_file : option string) (w : world)
    (data : pyval) (fixed_data : dict) (field url : string) :
  fst (load input_file w) = Ok data ->
  fix_record data = Ok fixed_data ->
  (forall f, In f url_fields -> url_value_ok (Py.get_or fixed_data f PNone) = true) ->
  target input_file output_file ∉ write_protected w ->
  In field url_fields ->
  Py.lookup fixed_data field = Some (PStr url) ->
  malformed_url url = true ->
  exists msgs,
    fix_file input_file output_file w
    = (Ok true,
       emit (written (emit w msgs) (target input_file output_file)
               (yaml_dump (PDict fixed_data)))
         [MsgFixed input_file])
    /\ In (MsgUrlWarning field) msgs
    /\ Forall (fun m => exists f, m = MsgUrlWarning f) msgs.
Proof.
  intros Hload Hfix Hok Hwr Hin Hurl Hbad.
  destruct (check_urls_ok fixed_data url_fields w Hok) as (msgs & Hrun & Hall & Hwarn).
  exists msgs. split; [| split; [eauto | exact Hall]].
  rewrite fix_file_run, fix_body_run, Hload, Hfix, Hrun.
  cbn [emit write_protected].
  destruct (decide (target input_file output_file ∈ write_protected w));
    [contradiction | reflexivity].
Qed.

(** A call that returns [True] has written the fixed record. *)
Lemma fix_file_success input_file output_file w w' :
  fix_file input_file output_file w = (Ok true, w') ->
  exists data fixed_data,
    fst (load input_file w) = Ok data
    /\ fix_record data = Ok fixed_data
    /\ files w' !! target input_file output_file
       = Some (yaml_dump (PDict fixed_data)).
Proof.
  rewrite fix_file_run, fix_body_run.
  destruct (fst (load input_file w)) as [data|e] eqn:Hload; [| discriminate].
  destruct (fix_record data) as [fixed_data|e] eqn:Hfix; [| discriminate].
  destruct (for_each url_fields (check_url fixed_data) w) as [[[]|e] w1];
    [| discriminate].
  destruct (decide (_ ∈ _)); [discriminate |].
  intros [= <-]. exists data, fixed_data.
  split; [reflexivity | split; [exact Hfix |]].
  cbn [emit written files]. apply lookup_insert_eq.
Qed.

(** C2: whatever the input record holds under [claim_type], or if it
    holds nothing, the record [fix_submission_file] produces has
    [claim_type] equal to ["custom_code"]: this holds of the record the
    transformation returns, and of the record written to the target
    whenever the function returns [True]. *)
Theorem claim_type_forced :
  (forall (data : pyval) (fixed_data : dict),
      fix_record data = Ok fixed_data ->
      Py.lookup fixed_data "claim_type" = Some (PStr "custom_code"))
  /\ (forall input_file output_file w w',
        fix_file input_file output_file w = (Ok true, w') ->
        exists fixed_data,
          files w' !! target input_file output_file
          = Some (yaml_dump (PDict fixed_data))
          /\ Py.lookup fixed_data "claim_type" = Some (PStr "custom_code")).
Proof.
  assert (Hrecord : forall (data : pyval) (fixed_data : dict),
             fix_record data = Ok fixed_data ->
             Py.lookup fixed_data "claim_type" = Some (PStr "custom_code")).
  { intros data fixed_data (d & cs' & _ & _ & ->)%fix_record_inv. reflexivity. }
  split; [exact Hrecord |].
  intros input_file output_file w w'
    (data & fixed_data & _ & Hfix & Hfile)%fix_file_success.
  exists fixed_data. split; [exact Hfile | exact (Hrecord _ _ Hfix)].
Qed.

(** C9: the record [fix_submission_file] produces has exactly the nine
    keys of the schema, in that order, so every other top-level key of the
    input is dropped; and each of its claims is a dictionary with exactly
    the keys [claim] and [instruction].  This holds of the record the
    transformation returns, and of the record written to the target
    whenever the function returns [True]. *)
Theorem fixed_record_schema :
  (forall (data : pyval) (fixed_data : dict),
      fix_record data = Ok fixed_data ->
      List.map fst fixed_data = schema_keys
      /\ exists claims,
           Py.lookup fixed_data "claims" = Some (PList claims)
           /\ Forall (fun claim =>
                        exists c, claim = PDict c /\ List.map fst c = claim_keys)
                claims)
  /\ (forall input_file output_file w w',
        fix_file input_file output_file w = (Ok true, w') ->
        exists fixed_data claims,
          files w' !! target input_file output_file
          = Some (yaml_dump (PDict fixed_data))
          /\ List.map fst fixed_data = schema_keys
          /\ Py.lookup fixed_data "claims" = Some (PList claims)
          /\ Forall (fun claim =>
                       exists c, claim = PDict c /\ List.map fst c = claim_keys)
               claims).
Proof.
  assert (Hrecord : forall (data : pyval) (fixed_data : dict),
             fix_record data = Ok fixed_data ->
             List.map fst fixed_data = schema_keys
             /\ exists claims,
                  Py.lookup fixed_data "claims" = Some (PList claims)
                  /\ Forall (fun claim =>
                               exists c, claim = PDict c /\ List.map fst c = claim_keys)
                       claims).
  { intros data fixed_data (d & cs' & _ & Hcs & ->)%fix_record_inv.
    split; [reflexivity |]. exists cs'. split; [reflexivity |].
    apply fixed_claims_inv in Hcs as (cs & Hall).
    induction Hall as [|x y cs cs' Hxy _ IH]; constructor; [| exact IH].
    apply fix_claim_inv in Hxy as (c & insts & _ & _ & ->). eauto. }
  split; [exact Hrecord |].
  intros input_file output_file w w'
    (data & fixed_data & _ & Hfix & Hfile)%fix_file_success.
  destruct (Hrecord _ _ Hfix) as (Hkeys & claims & Hclaims & Hall).
  exists fixed_data, claims. auto.
Qed.

(** Every call returns a boolean, keeps the protected paths, prints an
    outcome for the file and writes at most the target. *)
Lemma fix_file_outcome input_file output_file w :
  exists b w' msgs,
    fix_file input_file output_file w = (Ok b, w')
    /\ write_protected w' = write_protected w
    /\ stdout w' = stdout w ++ msgs
    /\ reported input_file msgs
    /\ (files w' = files w
        \/ exists text, files w' = <[target input_file output_file := text]> (files w)).
Proof.
  rewrite fix_file_run, fix_body_run.
  destruct (fst (load input_file w)) as [data|e].
  2: { exists false, (emit w [MsgErrorFixing input_file e]), [MsgErrorFixing input_file e].
       repeat split; [right; exists e; now left | now left]. }
  destruct (fix_record data) as [fixed_data|e].
  2: { exists false, (emit w [MsgErrorFixing input_file e]), [MsgErrorFixing input_file e].
       repeat split; [right; exists e; now left | now left]. }
  destruct (for_each_emit (check_url fixed_data) url_fields w) as (r & msgs & ->);
    [intros; apply check_url_emit |].
  destruct r as [[]|e].
  2: { exists false, (emit (emit w msgs) [MsgErrorFixing input_file e]),
         (msgs ++ [MsgErrorFixing input_file e]).
       split; [reflexivity |]. split; [reflexivity |].
       split; [cbn; now rewrite app_assoc |].
       split; [right; exists e; apply in_or_app; right; now left | now left]. }
  cbn [emit write_protected].
  destruct (decide (target input_file output_file ∈ write_protected w)).
  - exists false, (emit (emit w msgs) [MsgErrorFixing input_file OSError]),
      (msgs ++ [MsgErrorFixing input_file OSError]).
    split; [reflexivity |]. split; [reflexivity |].
    split; [cbn; now rewrite app_assoc |].
    split; [right; exists OSError; apply in_or_app; right; now left | now left].
  - eexists true, _, (msgs ++ [MsgFixed input_file]).
    split; [reflexivity |]. split; [reflexivity |].
    split; [cbn; now rewrite app_assoc |].
    split; [left; apply in_or_app; right; now left |].
    right. eexists. reflexivity.
Qed.

(** One turn of the loop of lines 121-142. *)
Lemma batch_loop_cons file_path rest output_directory output_path successful failed w :
  loop (file_path :: rest) output_directory output_path successful failed w
  = match fix_file (path_str file_path)
            (Some (path_str (batch_output output_directory output_path file_path)))
            (emit w (rename_notice output_directory file_path)) with
    | (Ok ok, w1) =>
        loop rest output_directory output_path
          (if ok then S successful else successful)
          (if ok then failed else S failed) w1
    | (Raise e, w1) => (Raise e, w1)
    end.
Proof.
  cbn [batch_loop]. unfold batch_output, rename_notice.
  destruct (validate_filename (name file_path)) as [is_valid suggested_name].
  unfold mbind at 1. unfold io_bind at 1.
  destruct (given output_directory), is_valid; cbn [negb]; rewrite ?emit_nil.
  all: unfold mbind, io_bind, mret, io_ret, print, emit.
  all: destruct (fix_submission_file _ _ _ _ _ _) as [[[]|] ?]; reflexivity.
Qed.

Lemma count_outcomes (outcomes : list bool) :
  (count_occ bool_dec outcomes true + count_occ bool_dec outcomes false
   = length outcomes)%nat.
Proof.
  induction outcomes as [|[] outcomes IH]; cbn; [reflexivity | |];
    repeat (destruct (bool_dec _ _); try congruence); lia.
Qed.

(** The loop calls [fix_submission_file] on every file in turn, adds one to
    [successful] for each [True] and one to [failed] for each [False]. *)
Lemma batch_loop_run (submission_files : list Path) output_directory output_path :
  forall successful failed w,
  exists outcomes w' msgs,
    run output_directory output_path submission_files w outcomes w'
    /\ loop submission_files output_directory output_path successful failed w
       = (Ok ((successful + count_occ bool_dec outcomes true)%nat,
              (failed + count_occ bool_dec outcomes false)%nat), w')
    /\ length outcomes = length submission_files
    /\ write_protected w' = write_protected w
    /\ stdout w' = stdout w ++ msgs
    /\ (forall file_path, In file_path submission_files ->
                          reported (path_str file_path) msgs).
Proof.
  induction submission_files as [|file_path rest IH]; intros successful failed w.
  - exists [], w, []. cbn.
    split; [constructor |]. split; [now rewrite !Nat.add_0_r |].
    split; [reflexivity |]. split; [reflexivity |].
    split; [now rewrite app_nil_r | tauto].
  - rewrite batch_loop_cons.
    destruct (fix_file_outcome (path_str file_path)
                (Some (path_str (batch_output output_directory output_path file_path)))
                (emit w (rename_notice output_directory file_path)))
      as (ok & w1 & msgs1 & Hcall & Hwp & Hout & Hrep & _).
    rewrite Hcall.
    destruct (IH (if ok then S successful else successful)
                (if ok then failed else S failed) w1)
      as (outcomes & w2 & msgs2 & Hrun & Hloop & Hlen & Hwp2 & Hout2 & Hrep2).
    exists (ok :: outcomes), w2,
      (rename_notice output_directory file_path ++ msgs1 ++ msgs2).
    split; [econstructor; eassumption |].
    split.
    { rewrite Hloop. destruct ok; cbn [count_occ];
        repeat (destruct (bool_dec _ _); try congruence);
        do 3 f_equal; lia. }
    split; [cbn [length]; now rewrite Hlen |].
    split; [now rewrite Hwp2, Hwp |].
    split; [rewrite Hout2, Hout; cbn; now rewrite !app_assoc |].
    intros p [<- | Hin].
    + destruct Hrep as [H | (e & H)]; [left | right; exists e];
        apply in_or_app; right; apply in_or_app; now left.
    + destruct (Hrep2 p Hin) as [H | (e & H)]; [left | right; exists e];
        apply in_or_app; right; apply in_or_app; now right.
Qed.

(** [batch_fix_submissions] once the directories are known. *)
Lemma batch_unfold input_directory output_directory w :
  batch input_directory output_directory w
  = let input_path := Posix.pure_path input_directory in
    let output_path := output_path_of input_path output_directory in
    let submission_files :=
      glob w input_path "*.yaml" ++ glob w input_path "*.yml"
      ++ glob w input_path "*.json" in
    if given output_directory && mkdir_raises mkdir_denied w output_path
    then (Raise OSError, w)
    else match submission_files with
         | [] => (Ok tt, emit w [MsgNoSubmissions input_directory])
         | _ =>
             match loop submission_files output_directory output_path 0 0 w with
             | (Ok (successful, failed), w1) =>
                 (Ok tt, emit w1 [MsgBatchComplete; MsgSuccessful successful;
                                  MsgFailed failed])
             | (Raise e, w1) => (Raise e, w1)
             end
         end.
Proof.
  unfold batch_fix_submissions, mkdir.
  unfold mbind at 1. unfold io_bind at 1.
  destruct (given output_directory); cbn [andb].
  - destruct (mkdir_raises _ _ _); [reflexivity |].
    destruct (_ ++ _); [reflexivity |].
    unfold mbind at 1. unfold io_bind at 1.
    destruct (batch_loop _ _ _ _ _ _ _ _ _) as [[[successful failed]|e] w1];
      [| reflexivity].
    unfold mbind, io_bind. now rewrite !print_emit, !emit_emit.
  - unfold mret, io_ret.
    destruct (_ ++ _); [reflexivity |].
    unfold mbind at 1. unfold io_bind at 1.
    destruct (batch_loop _ _ _ _ _ _ _ _ _) as [[[successful failed]|e] w1];
      [| reflexivity].
    unfold mbind, io_bind. now rewrite !print_emit, !emit_emit.
Qed.


Lemma needs_fix_unset (d : dict) :
  code_url_unset d = true ->
  needs_fix (Py.get_or d "code_url" (PStr "")) = Ok true.
Proof.
  unfold code_url_unset, Py.get_or, needs_fix.
  destruct (Py.lookup d "code_url") as [[| | |s| |]|]; try discriminate; try reflexivity.
  cbn [Py.truthy is_sentinel py_strip mbind result_bind].
  destruct (Str.is_empty s) eqn:Hs; [reflexivity |]. cbn [negb].
  destruct (String.eqb s "NOT_SPECIFIED"); [reflexivity |]. cbn [orb].
  intros Hall. now rewrite strip_empty_iff, Hall.
Qed.

Lemma needs_fix_given (d : dict) :
  code_url_given d = true ->
  needs_fix (Py.get_or d "code_url" (PStr "")) = Ok false.
Proof.
  unfold code_url_given, Py.get_or, needs_fix.
  destruct (Py.lookup d "code_url") as [[| | |s| |]|]; try discriminate.
  cbn [Py.truthy is_sentinel py_strip mbind result_bind].
  intros [Hs%negb_true_iff Hall%negb_true_iff]%andb_prop.
  rewrite Hs, strip_empty_iff, Hall.
  destruct s; [discriminate Hall | reflexivity].
Qed.

(** C1: take a file that holds a record.  If [code_url] is absent,
    [None], empty, white space or ["NOT_SPECIFIED"], and the file can be
    written, [fix_code_url] sets [code_url] to the fallback URL, leaves the
    other keys as they are, writes the record back to the file and returns
    [True].  If [code_url] is any other string it returns [False] and
    changes no file. *)
Theorem fix_code_url_spec (file_path text : string) (data : dict) (w : world) :
  files w !! file_path = Some text ->
  yaml_safe_load text = Ok (PDict data) ->
  (code_url_unset data = true ->
   file_path ∉ write_protected w ->
   let fixed := Py.set data "code_url" (PStr fallback_url) in
   fix_url file_path w
   = (Ok true,
      written (emit w [MsgCodeUrlFixed file_path]) file_path (yaml_dump (PDict fixed)))
   /\ Py.lookup fixed "code_url"
      = Some (PStr "http://www.quantum-espresso.org/download")
   /\ forall k, k <> "code_url" -> Py.lookup fixed k = Py.lookup data k)
  /\ (code_url_given data = true ->
      fix_url file_path w = (Ok false, emit w [MsgCodeUrlValid file_path])).
Proof.
  intros Hfile Hload. split.
  - intros Hunset Hwr fixed. split; [| split].
    + unfold fix_code_url, try_except, fix_code_url_body, mbind, io_bind,
        read_file, lift.
      rewrite Hfile, Hload. cbn [Py.get]. rewrite (needs_fix_unset _ Hunset).
      unfold setitem, print, write_file. cbn [write_protected].
      destruct (decide (file_path ∈ write_protected w)); [contradiction | reflexivity].
    + apply lookup_set.
    + intros k Hk. apply lookup_set_other. congruence.
  - intros Hgiven.
    unfold fix_code_url, try_except, fix_code_url_body, mbind, io_bind,
      read_file, lift.
    rewrite Hfile, Hload. cbn [Py.get]. rewrite (needs_fix_given _ Hgiven).
    reflexivity.
Qed.

End ScriptFacts.

(** ** The scripts on the example world *)

Example batch_example :
  stdout (snd (batch_fix_submissions example_yaml example_json Py.repr
                 (listing_glob example_listing) never_denied
                 "subs" None example_world))
  = [ MsgFixed "subs/a.yaml";
      MsgWillRename "b c.yaml" "b_c.yaml";
      MsgErrorFixing "subs/b c.yaml" ValueError;
      MsgBatchComplete; MsgSuccessful 1; MsgFailed 1 ].
Proof. vm_compute. reflexivity. Qed.

(** An output directory written with a slash at its end. *)
Example batch_output_example :
  batch_fix_submissions example_yaml example_json Py.repr
    (listing_glob example_listing) never_denied "./subs/" (Some "out/") example_world
  = (Ok tt,
     emit (written example_world "out/a.yaml"
             (Py.repr (PDict (fixed_template [(KStr "username", PStr "ada")]
                                [PDict [ (KStr "claim", PStr "X");
                                         (KStr "instruction",
                                           PList [PStr "Do thing"]) ]]))))
       [ MsgFixed "subs/a.yaml";
         MsgRenaming "b c.yaml" "b_c.yaml";
         MsgErrorFixing "subs/b c.yaml" ValueError;
         MsgBatchComplete; MsgSuccessful 1; MsgFailed 1 ]).
Proof. vm_compute. reflexivity. Qed.

Example path_examples :
  map Posix.pure_path ["out/"; "./a//b/."; ""; "/"; "//srv/x"; "///srv"]
  = ["out"; "a/b"; "."; "/"; "//srv/x"; "/srv"]
  /\ path_str (joinpath "out/" "a.yaml") = "out/a.yaml"
  /\ path_str (joinpath "." "a.yaml") = "a.yaml"
  /\ path_str (joinpath "/" "a.yaml") = "/a.yaml"
  /\ Posix.ancestors "out/2024/fixed" = ["out"; "out/2024"; "out/2024/fixed"].
Proof. repeat split. Qed.

Example fix_submission_example :
  files (snd (fix_submission_file example_yaml example_json Py.repr
                "subs/a.yaml" (Some "out/a.yaml") example_world)) !! "out/a.yaml"
  = Some (Py.repr (PDict (fixed_template [(KStr "username", PStr "ada")]
                            [PDict [ (KStr "claim", PStr "X");
                                     (KStr "instruction", PList [PStr "Do thing"]) ]]))).
Proof. vm_compute. reflexivity. Qed.

(** The statement of C1 at a file whose [code_url] is white space and at
    a file that has its own URL. *)
Lemma fix_code_url_spec_witness :
  (let fixed := Py.set [(KStr "username", PStr "ada"); (KStr "code_url", PStr "  ")]
                  "code_url" (PStr fallback_url) in
   fix_code_url example_yaml Py.repr "subs/blank.yaml" example_world
   = (Ok true,
      written (emit example_world [MsgCodeUrlFixed "subs/blank.yaml"])
        "subs/blank.yaml" (Py.repr (PDict fixed)))
   /\ Py.lookup fixed "code_url" = Some (PStr "http://www.quantum-espresso.org/download")
   /\ forall k, k <> "code_url" -> Py.lookup fixed k
        = Py.lookup [(KStr "username", PStr "ada"); (KStr "code_url", PStr "  ")] k)
  /\ fix_code_url example_yaml Py.repr "subs/own.yaml" example_world
     = (Ok false, emit example_world [MsgCodeUrlValid "subs/own.yaml"]).
Proof.
  split.
  - apply (proj1 (fix_code_url_spec example_yaml Py.repr
                    "subs/blank.yaml" "blank url"
                    [(KStr "username", PStr "ada"); (KStr "code_url", PStr "  ")]
                    example_world eq_refl eq_refl)).
    + reflexivity.
    + apply not_elem_of_empty.
  - apply (proj2 (fix_code_url_spec example_yaml Py.repr
                    "subs/own.yaml" "own url"
                    [(KStr "code_url", PStr "https://example.org/code")]
                    example_world eq_refl eq_refl)).
    reflexivity.
Defined.

(** The statement of C10 at a record whose only claim has the number 5
    for its instruction. *)
Lemma scalar_instruction_fails_witness :
  exists e w',
    fix_submission_file example_yaml example_json Py.repr
      "subs/scalar.yaml" None example_world = (Ok false, w')
    /\ files w' = files example_world
    /\ stdout w' = stdout example_world ++ [MsgErrorFixing "subs/scalar.yaml" e].
Proof.
  apply (scalar_instruction_fails example_yaml example_json Py.repr
           "subs/scalar.yaml" None example_world
           [(KStr "claims",
              PList [PDict [(KStr "claim", PStr "X"); (KStr "instruction", PInt 5)]])]
           [PDict [(KStr "claim", PStr "X"); (KStr "instruction", PInt 5)]]
           [(KStr "claim", PStr "X"); (KStr "instruction", PInt 5)]
           (PInt 5)).
  - reflexivity.
  - reflexivity.
  - left. reflexivity.
  - reflexivity.
  - reflexivity.
Defined.

(** The statement of C8 at a record whose [paper_pdf] is an FTP address. *)
Lemma url_warning_not_fatal_witness :
  exists msgs,
    fix_submission_file example_yaml example_json Py.repr
      "subs/ftp.yaml" (Some "out/ftp.yaml") example_world
    = (Ok true,
       emit (written (emit example_world msgs) "out/ftp.yaml"
               (Py.repr (PDict (fixed_template
                                  [(KStr "paper_pdf", PStr "ftp://host/paper.pdf")] []))))
         [MsgFixed "subs/ftp.yaml"])
    /\ In (MsgUrlWarning "paper_pdf") msgs
    /\ Forall (fun m => exists f, m = MsgUrlWarning f) msgs.
Proof.
  apply (url_warning_not_fatal example_yaml example_json Py.repr
           "subs/ftp.yaml" (Some "out/ftp.yaml") example_world
           (PDict [(KStr "paper_pdf", PStr "ftp://host/paper.pdf")])
           (fixed_template [(KStr "paper_pdf", PStr "ftp://host/paper.pdf")] [])
           "paper_pdf" "ftp://host/paper.pdf").
  - reflexivity.
  - reflexivity.
  - intros f [<- | [<- | [<- | []]]]; reflexivity.
  - apply not_elem_of_empty.
  - left. reflexivity.
  - reflexivity.
  - reflexivity.
Defined.

(** C8 as stated fails: in this record [paper_pdf] is present, is not the
    sentinel and does not start with [http://] or [https://], and
    [code_url] is the number 123.  The warning for [paper_pdf] is printed,
    then the validation of [code_url] raises: the function returns [False]
    and writes nothing. *)
Lemma url_warning_not_fatal_counterexample :
  example_yaml "ftp and number"
  = Ok (PDict [ (KStr "paper_pdf", PStr "ftp://host/paper.pdf");
                (KStr "code_url", PInt 123) ])
  /\ malformed_url "ftp://host/paper.pdf" = true
  /\ fix_submission_file example_yaml example_json Py.repr
       "subs/mixed.yaml" (Some "out/mixed.yaml") example_world
     = (Ok false,
        emit example_world
          [MsgUrlWarning "paper_pdf"; MsgErrorFixing "subs/mixed.yaml" AttributeError])
  /\ files (emit example_world
              [MsgUrlWarning "paper_pdf"; MsgErrorFixing "subs/mixed.yaml" AttributeError])
       !! "out/mixed.yaml" = None.
Proof. repeat split. Qed.



(** The three places an exception comes from: a missing input, a record
    that cannot be transformed, a target that cannot be written. *)
Example load_error_example :
  fix_submission_file example_yaml example_json Py.repr
    "subs/missing.yaml" None example_world
  = (Ok false, emit example_world [MsgErrorFixing "subs/missing.yaml" OSError]).
Proof. reflexivity. Qed.

Example transform_error_example :
  fix_submission_file example_yaml example_json Py.repr
    "subs/scalar.yaml" None example_world
  = (Ok false, emit example_world [MsgErrorFixing "subs/scalar.yaml" TypeError]).
Proof. reflexivity. Qed.

Example write_error_example :
  let w := World (files example_world) {["out/a.yaml"]} [] in
  fix_submission_file example_yaml example_json Py.repr
    "subs/a.yaml" (Some "out/a.yaml") w
  = (Ok false, emit w [MsgErrorFixing "subs/a.yaml" OSError]).
Proof. vm_compute. reflexivity. Qed.

(** The statement of C2 at a record that comes with another [claim_type]
    and at a file that is fixed. *)
Lemma claim_type_forced_witness :
  Py.lookup
    (fixed_template [(KStr "claim_type", PStr "software"); (KStr "username", PStr "ada")] [])
    "claim_type"
  = Some (PStr "custom_code")
  /\ exists fixed_data,
       files (snd (fix_submission_file example_yaml example_json Py.repr
                     "subs/a.yaml" (Some "out/a.yaml") example_world))
         !! "out/a.yaml" = Some (Py.repr (PDict fixed_data))
       /\ Py.lookup fixed_data "claim_type" = Some (PStr "custom_code").
Proof.
  split.
  - apply (proj1 (claim_type_forced example_yaml example_json Py.repr)
             (PDict [(KStr "claim_type", PStr "software"); (KStr "username", PStr "ada")])).
    reflexivity.
  - apply (proj2 (claim_type_forced example_yaml example_json Py.repr)
             "subs/a.yaml" (Some "out/a.yaml") example_world).
    reflexivity.
Defined.

(** The statement of C9 at a record with a foreign key at top level and
    one in its claim, and at a file that is fixed. *)
Lemma fixed_record_schema_witness :
  List.map fst
    (fixed_template [(KStr "editor", PStr "bob")]
       [PDict [(KStr "claim", PStr "X"); (KStr "instruction", PList [PStr "Run"])]])
  = schema_keys
  /\ exists fixed_data claims,
       files (snd (fix_submission_file example_yaml example_json Py.repr
                     "subs/a.yaml" (Some "out/a.yaml") example_world))
         !! "out/a.yaml" = Some (Py.repr (PDict fixed_data))
       /\ List.map fst fixed_data = schema_keys
       /\ Py.lookup fixed_data "claims" = Some (PList claims)
       /\ Forall (fun claim => exists c, claim = PDict c /\ List.map fst c = claim_keys)
            claims.
Proof.
  split.
  - apply (fun H =>
             proj1 (proj1 (fixed_record_schema example_yaml example_json Py.repr)
                      (PDict [ (KStr "editor", PStr "bob");
                               (KStr "claims",
                                 PList [PDict [ (KStr "claim", PStr "X");
                                                (KStr "score", PInt 3);
                                                (KStr "instruction",
                                                  PList [PStr "1. Run."]) ]]) ])
                      _ H)).
    reflexivity.
  - apply (proj2 (fixed_record_schema example_yaml example_json Py.repr)
             "subs/a.yaml" (Some "out/a.yaml") example_world).
    reflexivity.
Defined.

(** * Further properties of the scripts *)

(** ** The validator and the names it returns *)

Section FilenameExtras.

Implicit Types (s filename : string).

Lemma allowed_not_slash c :
  Char.is_allowed c = true -> negb (Ascii.eqb c "/") = true.
Proof. destruct c as [[] [] [] [] [] [] [] []]; vm_compute; congruence. Qed.

Lemma all_allowed_no_slash s : Str.all Char.is_allowed s = true -> no_slash s = true.
Proof.
  unfold no_slash. induction s as [|c s IH]; simpl; [reflexivity |].
  intros [Hc Hs]%andb_prop. now rewrite (allowed_not_slash _ Hc), IH.
Qed.

Lemma basename_no_slash s : no_slash s = true -> basename s = s.
Proof.
  unfold no_slash. destruct s as [|c s]; simpl; [reflexivity |].
  intros [Hc Hs]%andb_prop. rewrite Hs.
  apply negb_true_iff in Hc. now rewrite Hc.
Qed.

Lemma basename_has_no_slash filename : no_slash (basename filename) = true.
Proof.
  unfold no_slash. induction filename as [|c p IH]; simpl; [reflexivity |].
  destruct (Str.all _ p) eqn:Hp; [| exact IH].
  destruct (Ascii.eqb c "/") eqn:Hc; [exact Hp |].
  simpl. now rewrite Hc, Hp.
Qed.

End FilenameExtras.

(** X1: a suggested name that is not empty is accepted as it is when it
    is validated in turn. *)
Theorem suggested_name_accepted (filename suggested : string) :
  validate_filename filename = (false, suggested) ->
  suggested <> "" ->
  validate_filename suggested = (true, suggested).
Proof.
  unfold validate_filename at 1.
  destruct (filename_re_match (basename filename)); [discriminate |].
  intros [= <-] Hne.
  pose proof (sanitize_all (basename filename)) as Hall.
  unfold validate_filename.
  rewrite (basename_no_slash _ (all_allowed_no_slash _ Hall)).
  now rewrite filename_re_match_allowed.
Qed.

Lemma suggested_name_accepted_witness :
  validate_filename "my_paper__v2_.yaml" = (true, "my_paper__v2_.yaml").
Proof.
  apply (suggested_name_accepted "subs/my paper (v2).yaml" "my_paper__v2_.yaml");
    [reflexivity | discriminate].
Defined.

(** X2: the validator looks at the base name only, and the name it
    returns, accepted or suggested, holds no slash. *)
Theorem validate_filename_base_only (filename : string) :
  validate_filename filename = validate_filename (basename filename)
  /\ no_slash (snd (validate_filename filename)) = true.
Proof.
  unfold validate_filename.
  rewrite (basename_no_slash _ (basename_has_no_slash filename)).
  split; [reflexivity |].
  destruct (filename_re_match (basename filename)); cbn [snd].
  - apply basename_has_no_slash.
  - apply all_allowed_no_slash, sanitize_all.
Qed.

(** ** The cleanup only trims *)

Section TrimExtras.

Implicit Types (p : ascii -> bool) (s inst : string).

Lemma rstrip_split p s :
  exists suf, s = Str.rstrip_by p s +:+ suf /\ Str.all p suf = true.
Proof.
  induction s as [|x s (suf & Hs & Hsuf)]; simpl.
  - exists "". split; reflexivity.
  - destruct (Str.is_empty (Str.rstrip_by p s)) eqn:He; simpl.
    + apply is_empty_eq in He. rewrite He in Hs. simpl in Hs. subst suf.
      destruct (p x) eqn:Hx.
      * exists (String x s). simpl. rewrite Hx, Hsuf. split; reflexivity.
      * exists s. rewrite He. split; [reflexivity | exact Hsuf].
    + exists suf. split; [simpl; congruence | exact Hsuf].
Qed.

Lemma strip_numbering_suffix s : exists pre, s = pre +:+ strip_numbering s.
Proof.
  unfold strip_numbering.
  destruct (lstrip_split Char.is_space s) as (p1 & H1 & _).
  destruct (lstrip_split Char.is_digit (Str.lstrip_by Char.is_space s)) as (p2 & H2 & _).
  destruct (Nat.eqb _ _); [exists ""; reflexivity |].
  destruct (Str.lstrip_by Char.is_digit _) as [|c s3]; [exists ""; reflexivity |].
  destruct (Char.is_dot c); [| exists ""; reflexivity].
  destruct (lstrip_split Char.is_space s3) as (p3 & H3 & _).
  exists (p1 +:+ p2 +:+ String c p3).
  rewrite H1 at 1. rewrite H2 at 1. rewrite H3 at 1.
  rewrite !app_assoc_str. reflexivity.
Qed.

End TrimExtras.

(** X4: the cleanup of an instruction only removes characters at its two
    ends: the cleaned text is a piece of the entry, so it is never longer
    and nothing inside it is changed. *)
Theorem clean_text_infix (inst : string) :
  (exists pre suf, inst = pre +:+ clean_text inst +:+ suf)
  /\ (String.length (clean_text inst) <= String.length inst)%nat.
Proof.
  assert (H : exists pre suf, inst = pre +:+ clean_text inst +:+ suf).
  { unfold clean_text, Str.rstrip_dots, Str.strip.
    destruct (lstrip_split Char.is_space inst) as (a & Ha & _).
    destruct (rstrip_split Char.is_space (Str.lstrip_by Char.is_space inst))
      as (b & Hb & _).
    set (t := Str.rstrip_by Char.is_space (Str.lstrip_by Char.is_space inst)) in *.
    destruct (strip_numbering_suffix t) as (c & Hc).
    destruct (rstrip_split Char.is_dot (strip_numbering t)) as (d & Hd & _).
    exists (a +:+ c), (d +:+ b).
    rewrite Ha at 1. rewrite Hb at 1. rewrite Hc at 1. rewrite Hd at 1.
    rewrite !app_assoc_str. reflexivity. }
  split; [exact H |].
  destruct H as (pre & suf & H). rewrite H at 2.
  rewrite !length_app_str. lia.
Qed.

(** ** What the record transformation keeps and what it refuses *)

Section RecordExtras.

Implicit Types (d : dict) (cs claims : list pyval).

Lemma claim_instructions_fixed v (insts : list pyval) :
  claim_instructions
    (PDict [(KStr "claim", v); (KStr "instruction", PList (flat_map clean_entry insts))])
  = flat_map clean_entry insts.
Proof. reflexivity. Qed.

Lemma clean_entry_length (l : list pyval) :
  (length (flat_map clean_entry l) <= length l)%nat.
Proof.
  induction l as [|v l IH]; simpl; [lia |].
  rewrite length_app.
  assert (length (clean_entry v) <= 1)%nat; [| lia].
  destruct v; simpl; try lia. destruct (clean_instruction s); simpl; lia.
Qed.

Lemma clean_instruction_text s :
  clean_instruction s = (if Str.is_empty (clean_text s) then None else Some (clean_text s)).
Proof. reflexivity. Qed.

Lemma fix_claim_ok (claim : pyval) :
  (exists fixed_claim, fix_claim claim = Ok fixed_claim) <-> claim_ok claim = true.
Proof.
  destruct claim as [| | | | |c]; cbn [claim_ok];
    try (split; [intros (? & [=]) | discriminate]).
  rewrite fix_claim_dict. unfold instructions_of.
  destruct (Py.get_or c "instruction" (PList [])) as [| | |s|l|kv];
    cbn [Py.is_str Py.iter is_scalar negb mbind result_bind];
    split; try discriminate; try (intros (? & [=])); eauto.
Qed.

Lemma map_fix_claim_ok cs :
  (exists cs', map_result fix_claim cs = Ok cs') <-> forallb claim_ok cs = true.
Proof.
  induction cs as [|c cs IH]; cbn [map_result forallb].
  - split; eauto.
  - rewrite andb_true_iff, <- IH, <- fix_claim_ok. split.
    + intros (cs' & H). destruct (fix_claim c) as [c'|]; [| discriminate].
      cbn [mbind result_bind] in H.
      destruct (map_result fix_claim cs) as [l|]; [| discriminate]. eauto.
    + intros ((c' & ->) & (l & ->)). cbn [mbind result_bind]. eauto.
Qed.

End RecordExtras.

(** X3: in a record the transformation produces, every instruction entry
    is a string that is not empty, begins with a character other than
    white space and ends with a character other than the period. *)
Theorem fixed_instructions_shape (data : pyval) (fixed_data : dict) (v : pyval) :
  fix_record data = Ok fixed_data ->
  In v (record_instructions fixed_data) ->
  exists s,
    v = PStr s /\ starts_clean s = true
    /\ exists c, Str.last s = Some c /\ Char.is_dot c = false.
Proof.
  intros (d & cs' & _ & Hcs & ->)%fix_record_inv.
  change (record_instructions (fixed_template d cs'))
    with (flat_map claim_instructions cs').
  intros (c' & Hin & Hv)%in_flat_map.
  destruct (fixed_claims_image _ _ _ Hcs Hin) as (c & Hc).
  apply fix_claim_inv in Hc as (cd & insts & _ & _ & ->).
  rewrite claim_instructions_fixed in Hv.
  pose proof (clean_entry_strings insts) as Hstr.
  rewrite List.Forall_forall in Hstr. specialize (Hstr v Hv).
  destruct v as [| | |s| |]; try discriminate.
  exists s. split; [reflexivity |]. now apply clean_entry_shape with insts.
Qed.

Lemma fixed_instructions_shape_witness :
  exists s,
    PStr "Run make" = PStr s /\ starts_clean s = true
    /\ exists c, Str.last s = Some c /\ Char.is_dot c = false.
Proof.
  apply (fixed_instructions_shape
           (PDict [(KStr "claims",
                    PList [PDict [(KStr "instruction",
                                   PList [PStr "  3.  Run make... "; PStr " . "])]])])
           (fixed_template []
              [PDict [(KStr "claim", PStr ""); (KStr "instruction", PList [PStr "Run make"])]])).
  - reflexivity.
  - left. reflexivity.
Defined.

(** X5: when the instruction of a claim is a list, the fixed list is made,
    in no other way, of the [str] of every entry that is not a string and
    of the cleaned text of every string entry whose cleaned text is not
    empty; it is never longer than the list given. *)
Theorem fixed_instruction_list (claim : dict) (l : list pyval) :
  Py.lookup claim "instruction" = Some (PList l) ->
  exists l',
    fix_claim (PDict claim)
    = Ok (PDict [ (KStr "claim", Py.get_or claim "claim" (PStr ""));
                  (KStr "instruction", PList l') ])
    /\ (length l' <= length l)%nat
    /\ (forall v, In v l -> Py.is_str v = false -> In (PStr (Py.str v)) l')
    /\ (forall s, In (PStr s) l -> clean_text s <> "" -> In (PStr (clean_text s)) l')
    /\ (forall x, In x l' ->
          (exists s, In (PStr s) l /\ clean_text s <> "" /\ x = PStr (clean_text s))
          \/ (exists v, In v l /\ Py.is_str v = false /\ x = PStr (Py.str v))).
Proof.
  intros H. exists (flat_map clean_entry l).
  split; [| split; [apply clean_entry_length | split; [| split]]].
  - rewrite fix_claim_dict. unfold instructions_of, Py.get_or. now rewrite H.
  - intros v Hin Hv. apply in_flat_map. exists v. split; [exact Hin |].
    destruct v; try discriminate; now left.
  - intros s Hin Hne. apply in_flat_map. exists (PStr s). split; [exact Hin |].
    cbn [clean_entry]. rewrite clean_instruction_text.
    destruct (Str.is_empty (clean_text s)) eqn:E; [| now left].
    now apply is_empty_eq in E.
  - intros x (v & Hin & Hx)%in_flat_map.
    destruct (Py.is_str v) eqn:Ev.
    + left. destruct v as [| | |s| |]; try discriminate.
      cbn [clean_entry] in Hx. rewrite clean_instruction_text in Hx.
      destruct (Str.is_empty (clean_text s)) eqn:E; [destruct Hx |].
      destruct Hx as [<- | []]. exists s. split; [exact Hin |].
      split; [| reflexivity]. intros H0. rewrite H0 in E. discriminate.
    + right. exists v. split; [exact Hin |]. split; [exact Ev |].
      destruct v; try discriminate; destruct Hx as [<- | []]; reflexivity.
Qed.

Lemma fixed_instruction_list_witness :
  exists l',
    fix_claim (PDict [(KStr "instruction", PList [PStr "1. a."; PInt 7; PStr " . "])])
    = Ok (PDict [ (KStr "claim", PStr ""); (KStr "instruction", PList l') ])
    /\ (length l' <= 3)%nat.
Proof.
  destruct (fixed_instruction_list
              [(KStr "instruction", PList [PStr "1. a."; PInt 7; PStr " . "])]
              [PStr "1. a."; PInt 7; PStr " . "] eq_refl)
    as (l' & Hrun & Hlen & _).
  exists l'. split; [exact Hrun | exact Hlen].
Defined.

(** X6: when the claims of the input are a list, the produced record has
    as many claims, in the same order, and each of them carries the
    [claim] value of the claim it comes from (the empty string when that
    claim has none). *)
Theorem claims_kept_in_order (data : dict) (claims : list pyval) (fixed_data : dict) :
  Py.lookup data "claims" = Some (PList claims) ->
  fix_record (PDict data) = Ok fixed_data ->
  exists fixed_claims,
    Py.lookup fixed_data "claims" = Some (PList fixed_claims)
    /\ length fixed_claims = length claims
    /\ forall i claim,
         nth_error claims i = Some claim ->
         exists c fixed_claim,
           claim = PDict c
           /\ nth_error fixed_claims i = Some (PDict fixed_claim)
           /\ Py.lookup fixed_claim "claim" = Some (Py.get_or c "claim" (PStr "")).
Proof.
  intros Hclaims (d & cs' & [= <-] & Hcs & ->)%fix_record_inv.
  rewrite (fixed_claims_list _ _ Hclaims) in Hcs.
  apply map_result_Forall2 in Hcs.
  exists cs'. split; [reflexivity |]. split.
  - symmetry. eapply Forall2_length. exact Hcs.
  - intros i claim Hi.
    destruct (Forall2_nth_error _ _ _ _ _ Hcs Hi) as (y & Hy & Hxy).
    apply fix_claim_inv in Hxy as (c & insts & -> & _ & ->).
    eexists c, _. split; [reflexivity |]. split; [exact Hy | reflexivity].
Qed.

Lemma claims_kept_in_order_witness :
  exists fixed_claims,
    Py.lookup
      (fixed_template []
         [ PDict [(KStr "claim", PStr "A"); (KStr "instruction", PList [])];
           PDict [(KStr "claim", PStr ""); (KStr "instruction", PList [PStr "b"])] ])
      "claims" = Some (PList fixed_claims)
    /\ length fixed_claims = 2%nat.
Proof.
  destruct (claims_kept_in_order
              [(KStr "claims",
                PList [ PDict [(KStr "claim", PStr "A")];
                        PDict [(KStr "instruction", PStr "2. b.")] ])]
              [ PDict [(KStr "claim", PStr "A")];
                PDict [(KStr "instruction", PStr "2. b.")] ]
              _ eq_refl eq_refl)
    as (cs' & Hl & Hlen & _).
  exists cs'. split; [exact Hl | exact Hlen].
Defined.

(** X7: apart from [claim_type] and [claims], the produced record holds
    under each key the value the input holds under it, whatever its type
    ([None] stays [None]); a key the input lacks gets its default: the
    empty string, the sentinel for the two URLs, the empty list for
    [non_reproducible_claims]. *)
Theorem fields_passed_through (data fixed_data : dict) :
  fix_record (PDict data) = Ok fixed_data ->
  (forall k, In k ["username"; "paper_title"; "paper_pdf"; "identifier"] ->
             Py.lookup fixed_data k
             = Some (match Py.lookup data k with Some v => v | None => PStr "" end))
  /\ (forall k, In k ["code_url"; "data_url"] ->
                Py.lookup fixed_data k
                = Some (match Py.lookup data k with
                        | Some v => v
                        | None => PStr "NOT_SPECIFIED"
                        end))
  /\ Py.lookup fixed_data "non_reproducible_claims"
     = Some (match Py.lookup data "non_reproducible_claims" with
             | Some v => v
             | None => PList []
             end).
Proof.
  intros (d & cs' & [= <-] & _ & ->)%fix_record_inv.
  split; [| split; [| reflexivity]].
  - intros k [<- | [<- | [<- | [<- | []]]]]; reflexivity.
  - intros k [<- | [<- | []]]; reflexivity.
Qed.

Lemma fields_passed_through_witness :
  Py.lookup (fixed_template [(KStr "username", PNone); (KStr "code_url", PInt 0)] [])
    "non_reproducible_claims"
  = Some (PList []).
Proof.
  apply (fun H => proj2 (proj2 (fields_passed_through
                                  [(KStr "username", PNone); (KStr "code_url", PInt 0)]
                                  _ H))).
  reflexivity.
Defined.

(** X8: a record whose [claims] are absent or hold a false value ([None],
    an empty list, an empty string, 0) is always transformed, and the
    produced record has the empty list of claims. *)
Theorem no_claims_fixed (data : dict) :
  match Py.lookup data "claims" with
  | Some v => Py.truthy v = false
  | None => True
  end ->
  exists fixed_data,
    fix_record (PDict data) = Ok fixed_data
    /\ Py.lookup fixed_data "claims" = Some (PList []).
Proof.
  intros H. exists (fixed_template data []). split; [| reflexivity].
  rewrite fix_record_spec. unfold fixed_claims, Py.contains, Py.get_or.
  destruct (Py.lookup data "claims") as [v|]; [| reflexivity].
  rewrite H. reflexivity.
Qed.

Lemma no_claims_fixed_witness :
  exists fixed_data,
    fix_record (PDict [(KStr "username", PStr "ada"); (KStr "claims", PNone)])
    = Ok fixed_data
    /\ Py.lookup fixed_data "claims" = Some (PList []).
Proof.
  apply (no_claims_fixed [(KStr "username", PStr "ada"); (KStr "claims", PNone)]).
  reflexivity.
Defined.

(** X9: the transformation produces a record exactly for the documents
    that are a dictionary whose claims are absent, a false value, or a
    collection that can be iterated and holds only dictionaries with an
    instruction that is absent, a string, a list or a dictionary; on every
    other document it raises. *)
Theorem fix_record_accepts (data : pyval) :
  (exists fixed_data, fix_record data = Ok fixed_data) <-> record_ok data = true.
Proof.
  destruct data as [| | | | |d]; cbn [record_ok];
    try (split; [intros (? & [=]) | discriminate]).
  rewrite fix_record_spec. unfold fixed_claims.
  destruct (Py.contains d "claims" && Py.truthy (Py.get_or d "claims" PNone)).
  - destruct (Py.iter (Py.get_or d "claims" PNone)) as [cs|e];
      cbn [mbind result_bind].
    + rewrite <- map_fix_claim_ok. split.
      * intros (r & H). destruct (map_result fix_claim cs); [eauto | discriminate].
      * intros (cs' & ->). cbn [mbind result_bind]. eauto.
    + split; [intros (? & [=]) | discriminate].
  - split; eauto.
Qed.

(** ** What [fix_submission_file] does to the world *)

Section ScriptExtras.

Context (yaml_safe_load json_load : string -> result pyval).
Context (yaml_dump : pyval -> string).

Local Abbreviation load := (load_submission yaml_safe_load json_load).
Local Abbreviation fix_file :=
  (fix_submission_file yaml_safe_load json_load yaml_dump).
Local Abbreviation loop := (batch_loop yaml_safe_load json_load yaml_dump).
Local Abbreviation fix_url := (fix_code_url yaml_safe_load yaml_dump).
Local Abbreviation url_loop := (code_url_loop yaml_safe_load yaml_dump).

Implicit Types (w : world) (msgs : list message) (e : exn) (d : dict).

(** The values of the URL fields the validation can look at. *)
Local Abbreviation urls_ok fixed_data :=
  (forallb (fun f => url_value_ok (Py.get_or fixed_data f PNone)) url_fields).

Lemma check_url_bad (fixed_data : dict) field w :
  url_value_ok (Py.get_or fixed_data field PNone) = false ->
  check_url fixed_data field w = (Raise AttributeError, w).
Proof.
  unfold check_url, url_value_ok, Py.contains, Py.get_or.
  destruct (Py.lookup fixed_data field) as [v|]; [| discriminate].
  destruct v; cbn [Py.is_str orb andb]; try discriminate;
    intros ->%negb_false_iff; reflexivity.
Qed.

Lemma check_url_exact (fixed_data : dict) field w :
  url_value_ok (Py.get_or fixed_data field PNone) = true ->
  check_url fixed_data field w
  = (Ok tt, emit w (if warned fixed_data field then [MsgUrlWarning field] else [])).
Proof.
  unfold check_url, url_value_ok, warned, Py.contains, Py.get_or, malformed_url.
  destruct (Py.lookup fixed_data field) as [v|]; cbn [andb];
    [| intros _; now rewrite emit_nil].
  destruct v as [| | |url| |]; cbn [Py.is_str orb];
    try (intros ->%negb_true_iff; now rewrite emit_nil).
  intros _. cbn [Py.truthy].
  destruct (Str.is_empty url); cbn [negb andb]; [now rewrite emit_nil |].
  destruct (String.eqb url "NOT_SPECIFIED"); cbn [negb andb]; [now rewrite emit_nil |].
  destruct (Str.startswith url "http://"); cbn [negb andb orb];
    [now rewrite emit_nil |].
  destruct (Str.startswith url "https://"); cbn [negb andb orb];
    [now rewrite emit_nil | reflexivity].
Qed.

(** The loop over the URL fields: it raises at the first value it cannot
    look at, and otherwise prints the warnings of the malformed fields. *)
Lemma check_urls_run (fixed_data : dict) (fields : list string) w :
  exists msgs,
    for_each fields (check_url fixed_data) w
    = ((if forallb (fun f => url_value_ok (Py.get_or fixed_data f PNone)) fields
        then Ok tt else Raise AttributeError),
       emit w msgs)
    /\ (forallb (fun f => url_value_ok (Py.get_or fixed_data f PNone)) fields = true ->
        msgs = List.map MsgUrlWarning (List.filter (warned fixed_data) fields)).
Proof.
  revert w. induction fields as [|f fields IH]; intros w; cbn [for_each forallb].
  - exists []. rewrite emit_nil. split; reflexivity.
  - unfold mbind, io_bind.
    destruct (url_value_ok (Py.get_or fixed_data f PNone)) eqn:Hf; cbn [andb].
    + rewrite (check_url_exact _ _ _ Hf).
      destruct (IH (emit w (if warned fixed_data f then [MsgUrlWarning f] else [])))
        as (msgs & -> & Hmsgs).
      eexists. rewrite emit_emit. split; [reflexivity |].
      intros Hall. rewrite (Hmsgs Hall). cbn [List.filter].
      destruct (warned fixed_data f); reflexivity.
    + rewrite (check_url_bad _ _ _ Hf). exists []. rewrite emit_nil.
      split; [reflexivity | discriminate].
Qed.

(** The call, case by case. *)
Lemma fix_file_cases input_file output_file w :
  exists msgs,
    fix_file input_file output_file w
    = match fst (load input_file w) with
      | Raise e => (Ok false, emit w [MsgErrorFixing input_file e])
      | Ok data =>
          match fix_record data with
          | Raise e => (Ok false, emit w [MsgErrorFixing input_file e])
          | Ok fixed_data =>
              if urls_ok fixed_data then
                if decide (target input_file output_file ∈ write_protected w)
                then (Ok false, emit w (msgs ++ [MsgErrorFixing input_file OSError]))
                else (Ok true,
                      emit (written (emit w msgs) (target input_file output_file)
                              (yaml_dump (PDict fixed_data)))
                        [MsgFixed input_file])
              else (Ok false, emit w (msgs ++ [MsgErrorFixing input_file AttributeError]))
          end
      end
    /\ forall data fixed_data,
         fst (load input_file w) = Ok data -> fix_record data = Ok fixed_data ->
         urls_ok fixed_data = true ->
         msgs = List.map MsgUrlWarning (List.filter (warned fixed_data) url_fields).
Proof.
  rewrite fix_file_run, fix_body_run.
  destruct (fst (load input_file w)) as [data|e] eqn:Hload;
    [| exists []; split; [reflexivity | discriminate]].
  destruct (fix_record data) as [fixed_data|e] eqn:Hfix;
    [| exists []; split; [reflexivity | intros ? ? [= <-]; congruence]].
  destruct (check_urls_run fixed_data url_fields w) as (msgs & -> & Hmsgs).
  exists msgs. split.
  - destruct (urls_ok fixed_data); [| now rewrite emit_emit].
    cbn [emit write_protected].
    destruct (decide (_ ∈ _)); [now rewrite emit_emit | reflexivity].
  - intros ? ? [= <-] Hfix'. rewrite Hfix in Hfix'. injection Hfix' as <-.
    exact Hmsgs.
Qed.

(** What a call can change. *)
Lemma fix_file_effect input_file output_file w :
  exists b w' msgs,
    fix_file input_file output_file w = (Ok b, w')
    /\ write_protected w' = write_protected w
    /\ stdout w' = stdout w ++ msgs
    /\ (forall p, p <> target input_file output_file ->
                  files w' !! p = files w !! p)
    /\ (b = false -> files w' = files w).
Proof.
  destruct (fix_file_cases input_file output_file w) as (msgs & -> & _).
  destruct (fst (load input_file w)) as [data|e];
    [| eexists _, _, _; repeat split; reflexivity].
  destruct (fix_record data) as [fixed_data|e];
    [| eexists _, _, _; repeat split; reflexivity].
  destruct (urls_ok fixed_data); [| eexists _, _, _; repeat split; reflexivity].
  destruct (decide (_ ∈ _)); [eexists _, _, _; repeat split; reflexivity |].
  eexists true, _, (msgs ++ [MsgFixed input_file]).
  split; [reflexivity |]. split; [reflexivity |].
  split; [cbn; now rewrite app_assoc |].
  split; [| discriminate].
  intros p Hp. cbn. now apply lookup_insert_ne.
Qed.

(** X10: a call of [fix_submission_file] changes no file but its target
    (the input file itself when no output is given), changes no file at
    all when it returns [False], and only adds to what was printed. *)
Theorem fix_file_frame input_file output_file w b w' :
  fix_file input_file output_file w = (Ok b, w') ->
  write_protected w' = write_protected w
  /\ (exists msgs, stdout w' = stdout w ++ msgs)
  /\ (forall p, p <> target input_file output_file -> files w' !! p = files w !! p)
  /\ (b = false -> files w' = files w).
Proof.
  intros H.
  destruct (fix_file_effect input_file output_file w)
    as (b0 & w0 & msgs & H0 & Hwp & Hout & Hframe & Hfail).
  rewrite H in H0. injection H0 as <- <-. eauto.
Qed.

(** X11: [fix_submission_file] returns [True] exactly when the input file
    loads, the transformation accepts the document, each of the three URL
    fields of the fixed record holds a string or a false value, and the
    target can be written. *)
Theorem fix_file_true_iff input_file output_file w :
  (exists w', fix_file input_file output_file w = (Ok true, w'))
  <-> exists data fixed_data,
        fst (load input_file w) = Ok data
        /\ fix_record data = Ok fixed_data
        /\ (forall f, In f url_fields ->
                      url_value_ok (Py.get_or fixed_data f PNone) = true)
        /\ target input_file output_file ∉ write_protected w.
Proof.
  destruct (fix_file_cases input_file output_file w) as (msgs & -> & _).
  destruct (fst (load input_file w)) as [data|e].
  2: { split; [intros (? & [=]) | intros (? & ? & [=] & _)]. }
  destruct (fix_record data) as [fixed_data|e] eqn:Hfix.
  2: { split; [intros (? & [=]) |].
       intros (? & ? & [= <-] & H & _). congruence. }
  destruct (urls_ok fixed_data) eqn:Hok.
  - rewrite forallb_forall in Hok.
    destruct (decide (_ ∈ _)) as [Hin|Hin].
    + split; [intros (? & [=]) |]. intros (? & ? & _ & _ & _ & H). contradiction.
    + split; [| eauto]. intros _. exists data, fixed_data. auto.
  - split; [intros (? & [=]) |].
    intros (? & fd & [= <-] & H & Hall & _). rewrite Hfix in H. injection H as <-.
    apply forallb_forall in Hall. congruence.
Qed.

(** X12: when a call succeeds, what it prints is, in the order
    [paper_pdf], [code_url], [data_url], one warning for each of these
    fields that holds a malformed URL and no other, then the success
    message; a record whose URLs are empty, the sentinel or start with
    [http://] or [https://] prints the success message alone. *)
Theorem url_warnings_exact input_file output_file w data fixed_data :
  fst (load input_file w) = Ok data ->
  fix_record data = Ok fixed_data ->
  (forall f, In f url_fields -> url_value_ok (Py.get_or fixed_data f PNone) = true) ->
  target input_file output_file ∉ write_protected w ->
  fix_file input_file output_file w
  = (Ok true,
     World (<[target input_file output_file := yaml_dump (PDict fixed_data)]> (files w))
       (write_protected w)
       (stdout w
        ++ List.map MsgUrlWarning (List.filter (warned fixed_data) url_fields)
        ++ [MsgFixed input_file])).
Proof.
  intros Hload Hfix Hok Hwr.
  destruct (fix_file_cases input_file output_file w) as (msgs & -> & Hmsgs).
  apply forallb_forall in Hok.
  rewrite Hload, Hfix, Hok, (Hmsgs _ _ Hload Hfix Hok).
  destruct (decide (_ ∈ _)); [contradiction |].
  unfold emit, written. cbn. now rewrite <- app_assoc.
Qed.

(** X13: a file that cannot be loaded is reported with the exception that
    stopped the loading: [OSError] for a missing file; the exception of
    the YAML parser when it is not a [YAMLError], without a try of the JSON
    parser; the exception of the JSON parser when the YAML parser raised
    [YAMLError] and the JSON parser fails too.  No file changes. *)
Theorem load_errors_reported input_file output_file w :
  (files w !! input_file = None ->
   fix_file input_file output_file w
   = (Ok false, emit w [MsgErrorFixing input_file OSError]))
  /\ (forall text e,
        files w !! input_file = Some text ->
        yaml_safe_load text = Raise e -> e <> YAMLError ->
        fix_file input_file output_file w
        = (Ok false, emit w [MsgErrorFixing input_file e]))
  /\ (forall text e,
        files w !! input_file = Some text ->
        yaml_safe_load text = Raise YAMLError -> json_load text = Raise e ->
        fix_file input_file output_file w
        = (Ok false, emit w [MsgErrorFixing input_file e])).
Proof.
  assert (Hfail : forall e, fst (load input_file w) = Raise e ->
                            fix_file input_file output_file w
                            = (Ok false, emit w [MsgErrorFixing input_file e])).
  { intros e H. now rewrite fix_file_run, fix_body_run, H. }
  split; [| split].
  - intros H. apply Hfail.
    unfold load_submission, mbind, io_bind, read_file. now rewrite H.
  - intros text e H Hy He. apply Hfail.
    unfold load_submission, mbind, io_bind, read_file. rewrite H, Hy.
    destruct e; try reflexivity. congruence.
  - intros text e H Hy Hj. apply Hfail.
    unfold load_submission, mbind, io_bind, read_file, lift. now rewrite H, Hy, Hj.
Qed.

(** ** The batch driver and the files it writes *)

(** In a directory, two names give the same path only when they are the
    same name. *)
Lemma join_dir_inj (directory m n : string) :
  n <> "" -> n <> "." ->
  Posix.join_dir directory m = Posix.join_dir directory n -> m = n.
Proof.
  intros Hn Hdot. unfold Posix.join_dir.
  destruct (String.eqb_spec n ""); [contradiction |].
  destruct (String.eqb_spec n "."); [contradiction |]. cbn [orb].
  assert (Hlen : forall a, directory = directory +:+ a -> a = "").
  { intros a E. apply (f_equal String.length) in E.
    rewrite length_app_str in E. destruct a; [reflexivity | cbn in E; lia]. }
  destruct (String.eqb_spec m ""), (String.eqb_spec m "."); cbn [orb].
  4: { destruct (String.eqb directory "."); [auto |].
       destruct (_ || _); intros E.
       - now apply (inj (String.app _)) in E.
       - now apply (inj (String.app _)), (inj (String.app _)) in E. }
  all: destruct (String.eqb_spec directory ".");
    [subst directory; intros E; now rewrite <- E in Hdot |].
  all: destruct (_ || _); intros E; apply Hlen in E; [contradiction | discriminate E].
Qed.

(** One turn of the loop of [batch_fix_submissions]. *)
Lemma batch_loop_step file_path rest output_directory output_path successful failed w :
  exists msgs,
    loop (file_path :: rest) output_directory output_path successful failed w
    = match fix_file (path_str file_path)
              (Some (path_str (batch_output output_directory output_path file_path)))
              (emit w msgs) with
      | (Ok b, w1) =>
          loop rest output_directory output_path
            (if b then S successful else successful)
            (if b then failed else S failed) w1
      | (Raise e, w1) => (Raise e, w1)
      end.
Proof.
  cbn [batch_loop]. unfold batch_output.
  destruct (validate_filename (name file_path)) as [is_valid suggested_name].
  unfold mbind at 1. unfold io_bind at 1.
  destruct (given output_directory), is_valid; cbn [negb].
  1, 3: exists []; rewrite emit_nil.
  3: exists [MsgRenaming (name file_path) suggested_name].
  4: exists [MsgWillRename (name file_path) suggested_name].
  all: unfold mbind, io_bind, mret, io_ret, print, emit.
  all: destruct (fix_submission_file _ _ _ _ _ _) as [[[]|] ?]; reflexivity.
Qed.

(** The loop changes no file but the targets of the files it goes
    through. *)
Lemma batch_loop_frame (submission_files : list Path) output_directory output_path p :
  (forall file_path, In file_path submission_files ->
     path_str (batch_output output_directory output_path file_path) <> p) ->
  forall successful failed w,
    files (snd (loop submission_files output_directory output_path successful failed w))
      !! p
    = files w !! p.
Proof.
  induction submission_files as [|file_path rest IH]; intros Hp successful failed w.
  - reflexivity.
  - destruct (batch_loop_step file_path rest output_directory output_path
                successful failed w) as (msgs & ->).
    destruct (fix_file_effect (path_str file_path)
                (Some (path_str (batch_output output_directory output_path file_path)))
                (emit w msgs))
      as (b & w1 & _ & -> & _ & _ & Hframe & _).
    rewrite IH by (intros; apply Hp; now right).
    rewrite Hframe; [reflexivity |].
    cbn [target]. intros ->. apply (Hp file_path); [now left | reflexivity].
Qed.

(** X14: [batch_fix_submissions] changes no file but the targets of the
    files it finds: the file itself or its suggested name beside it
    without an output directory, its name or suggested name in the output
    directory otherwise, the directories being read as [pathlib] reads
    them.  With no file found, or when the output directory cannot be
    made, it changes nothing. *)
Theorem batch_frame (glob : world -> string -> string -> list Path)
    (mkdir_denied : world -> string -> bool)
    (input_directory : string) (output_directory : option string) w p :
  (forall file_path,
     In file_path (glob w (Posix.pure_path input_directory) "*.yaml"
                   ++ glob w (Posix.pure_path input_directory) "*.yml"
                   ++ glob w (Posix.pure_path input_directory) "*.json") ->
     path_str (batch_output output_directory
                 (output_path_of (Posix.pure_path input_directory) output_directory)
                 file_path) <> p) ->
  files (snd (batch_fix_submissions yaml_safe_load json_load yaml_dump glob
                mkdir_denied input_directory output_directory w)) !! p
  = files w !! p.
Proof.
  intros Hp.
  rewrite (batch_unfold yaml_safe_load json_load yaml_dump glob mkdir_denied).
  cbv zeta.
  set (input_path := Posix.pure_path input_directory) in *.
  set (output_path := output_path_of input_path output_directory) in *.
  set (found := glob w input_path "*.yaml" ++ glob w input_path "*.yml"
                ++ glob w input_path "*.json") in *.
  destruct (given output_directory && mkdir_raises mkdir_denied w output_path);
    [reflexivity |].
  pose proof (batch_loop_frame found output_directory output_path p Hp 0%nat 0%nat w)
    as Hframe.
  destruct found as [|x rest]; [reflexivity |].
  destruct (batch_loop _ _ _ _ _ _ _ _ _) as [[[successful failed]|e] w1];
    exact Hframe.
Qed.

(** X15: without an output directory, a file of the directory whose name
    is refused is neither renamed nor overwritten by the batch: whatever
    the other files of the directory are, its path holds afterwards what
    it held before (the fixed form goes to the suggested name). *)
Theorem refused_name_file_kept (submission_files : list Path) (file_path : Path)
    (suggested : string) output_path successful failed w :
  (forall x, In x submission_files -> parent x = parent file_path) ->
  validate_filename (name file_path) = (false, suggested) ->
  name file_path <> "" ->
  files (snd (loop submission_files None output_path successful failed w))
    !! path_str file_path
  = files w !! path_str file_path.
Proof.
  intros Hparent Hbad Hne. apply batch_loop_frame. intros x Hx.
  assert (Hdot : name file_path <> ".").
  { intros E. rewrite E in Hbad. discriminate Hbad. }
  unfold batch_output, given, path_str.
  destruct (validate_filename (name x)) as [is_valid suggested_name] eqn:Hvx.
  destruct is_valid; cbn [negb joinpath parent name].
  - rewrite (Hparent x Hx). intros E.
    apply join_dir_inj in E; [| assumption | assumption].
    rewrite E in Hvx. congruence.
  - rewrite (Hparent x Hx). intros E.
    apply join_dir_inj in E; [| assumption | assumption].
    assert (Hs : suggested_name = Str.map sanitize_char (basename (name x))).
    { unfold validate_filename in Hvx.
      destruct (filename_re_match _); [discriminate | congruence]. }
    pose proof (sanitize_all (basename (name x))) as Hall.
    rewrite <- Hs, E in Hall.
    assert (Hok : validate_filename (name file_path) = (true, name file_path)).
    { unfold validate_filename.
      rewrite (basename_no_slash _ (all_allowed_no_slash _ Hall)).
      now rewrite filename_re_match_allowed. }
    congruence.
Qed.

(** ** [fix_code_url] *)

Lemma needs_fix_cases d :
  needs_fix (Py.get_or d "code_url" (PStr ""))
  = if code_url_replaced d then Ok true
    else if Py.is_str (Py.get_or d "code_url" (PStr "")) then Ok false
         else Raise AttributeError.
Proof.
  unfold needs_fix, code_url_replaced.
  destruct (Py.get_or d "code_url" (PStr "")) as [|b|z|s|l|kv];
    cbn [Py.truthy Py.is_str is_sentinel py_strip negb mbind result_bind];
    try reflexivity.
  destruct (Str.is_empty s) eqn:Hs; cbn [negb].
  - apply is_empty_eq in Hs. subst s. reflexivity.
  - destruct (String.eqb s "NOT_SPECIFIED"); [reflexivity |]. cbn [orb].
    rewrite strip_empty_iff. destruct (Str.all Char.is_space s); reflexivity.
Qed.

(** The call, case by case. *)
Lemma fix_url_cases file_path w :
  fix_url file_path w
  = match files w !! file_path with
    | None => (Ok false, emit w [MsgCodeUrlError file_path OSError])
    | Some text =>
        match yaml_safe_load text with
        | Raise e => (Ok false, emit w [MsgCodeUrlError file_path e])
        | Ok (PDict d) =>
            if code_url_replaced d then
              if decide (file_path ∈ write_protected w)
              then (Ok false,
                    emit w [MsgCodeUrlFixed file_path; MsgCodeUrlError file_path OSError])
              else (Ok true,
                    written (emit w [MsgCodeUrlFixed file_path]) file_path
                      (yaml_dump (PDict (Py.set d "code_url" (PStr fallback_url)))))
            else if Py.is_str (Py.get_or d "code_url" (PStr ""))
                 then (Ok false, emit w [MsgCodeUrlValid file_path])
                 else (Ok false, emit w [MsgCodeUrlError file_path AttributeError])
        | Ok _ => (Ok false, emit w [MsgCodeUrlError file_path AttributeError])
        end
    end.
Proof.
  unfold fix_code_url, try_except, fix_code_url_body, mbind, io_bind, read_file, lift.
  destruct (files w !! file_path) as [text|]; [| reflexivity].
  destruct (yaml_safe_load text) as [[| | | | |d]|e]; try reflexivity.
  cbn [Py.get]. rewrite needs_fix_cases.
  destruct (code_url_replaced d).
  - unfold setitem, print, write_file. cbn [write_protected].
    destruct (decide (_ ∈ _)); [| reflexivity].
    unfold emit, mret, io_ret. cbn. now rewrite <- app_assoc.
  - destruct (Py.is_str _); reflexivity.
Qed.

(** X16: [fix_code_url] returns [True] exactly when the file holds a
    dictionary whose [code_url] is absent, a false value of any type
    ([None], the empty string, 0, an empty list), the sentinel or a string
    of white space, and the file can be written; the file then holds the
    record with the fallback URL under [code_url]. *)
Theorem fix_code_url_true_iff file_path w :
  (exists w', fix_url file_path w = (Ok true, w'))
  <-> exists text d,
        files w !! file_path = Some text
        /\ yaml_safe_load text = Ok (PDict d)
        /\ code_url_replaced d = true
        /\ (file_path ∉ write_protected w)
        /\ (files (snd (fix_url file_path w)) !! file_path
            = Some (yaml_dump (PDict (Py.set d "code_url" (PStr fallback_url))))).
Proof.
  rewrite fix_url_cases.
  destruct (files w !! file_path) as [text|].
  2: { split; [intros (? & [=]) | intros (? & ? & [=] & _)]. }
  destruct (yaml_safe_load text) as [data|e] eqn:Hload.
  2: { split; [intros (? & [=]) |].
       intros (? & ? & [= <-] & Hy & _). congruence. }
  destruct data as [| | | | |d];
    try (split; [intros (? & [=]) | intros (? & ? & [= <-] & Hy & _); congruence]).
  destruct (code_url_replaced d) eqn:Hr.
  - destruct (decide (_ ∈ _)) as [Hin|Hin].
    + split; [intros (? & [=]) |]. intros (? & ? & _ & _ & _ & H & _). contradiction.
    + split; [| eauto]. intros _. exists text, d.
      repeat (split; [first [reflexivity | assumption] |]).
      cbn. apply lookup_insert_eq.
  - split.
    + destruct (Py.is_str _); intros (? & [=]).
    + intros (? & d' & [= <-] & Hy & H & _). congruence.
Qed.

(** X17: the failures of [fix_code_url], each reported with its cause and
    none changing a file: a missing file; a text the YAML parser refuses
    (there is no second parser here); a document that is not a
    dictionary; a [code_url] that is a true value but not a string; and a
    file that cannot be written, where the message that the file was fixed
    is printed before the error. *)
Theorem fix_code_url_failures file_path w :
  (files w !! file_path = None ->
   fix_url file_path w = (Ok false, emit w [MsgCodeUrlError file_path OSError]))
  /\ (forall text e,
        files w !! file_path = Some text -> yaml_safe_load text = Raise e ->
        fix_url file_path w = (Ok false, emit w [MsgCodeUrlError file_path e]))
  /\ (forall text data,
        files w !! file_path = Some text -> yaml_safe_load text = Ok data ->
        (forall d, data <> PDict d) ->
        fix_url file_path w
        = (Ok false, emit w [MsgCodeUrlError file_path AttributeError]))
  /\ (forall text d v,
        files w !! file_path = Some text -> yaml_safe_load text = Ok (PDict d) ->
        Py.lookup d "code_url" = Some v ->
        Py.is_str v = false -> Py.truthy v = true ->
        fix_url file_path w
        = (Ok false, emit w [MsgCodeUrlError file_path AttributeError]))
  /\ (forall text d,
        files w !! file_path = Some text -> yaml_safe_load text = Ok (PDict d) ->
        code_url_replaced d = true -> file_path ∈ write_protected w ->
        fix_url file_path w
        = (Ok false,
           emit w [MsgCodeUrlFixed file_path; MsgCodeUrlError file_path OSError])).
Proof.
  rewrite fix_url_cases. repeat split.
  - now intros ->.
  - now intros text e -> ->.
  - intros text data -> -> Hd. destruct data; try reflexivity. now destruct (Hd d).
  - intros text d v -> -> Hv Hs Ht.
    unfold code_url_replaced, Py.get_or. rewrite Hv.
    destruct v; try discriminate; cbn [Py.is_str]; now rewrite Ht.
  - intros text d -> -> -> Hin.
    destruct (decide (_ ∈ _)); [reflexivity | contradiction].
Qed.

(** What a call can change. *)
Lemma fix_url_effect file_path w :
  exists b w' msgs,
    fix_url file_path w = (Ok b, w')
    /\ write_protected w' = write_protected w
    /\ stdout w' = stdout w ++ msgs
    /\ (forall p, p <> file_path -> files w' !! p = files w !! p)
    /\ (b = false -> files w' = files w).
Proof.
  rewrite fix_url_cases.
  destruct (files w !! file_path) as [text|];
    [| eexists _, _, _; repeat split; reflexivity].
  destruct (yaml_safe_load text) as [[| | | | |d]|e];
    try (eexists _, _, _; repeat split; reflexivity).
  destruct (code_url_replaced d).
  - destruct (decide (_ ∈ _)); [eexists _, _, _; repeat split; reflexivity |].
    eexists true, _, [MsgCodeUrlFixed file_path].
    split; [reflexivity |]. split; [reflexivity |]. split; [reflexivity |].
    split; [| discriminate]. intros p Hp. cbn. now apply lookup_insert_ne.
  - destruct (Py.is_str _); eexists _, _, _; repeat split; reflexivity.
Qed.

(** X18: [fix_code_url] never raises; a call changes no file but the one
    it is given, changes no file at all when it returns [False], and only
    adds to what was printed. *)
Theorem fix_code_url_frame file_path w :
  exists b w',
    fix_code_url yaml_safe_load yaml_dump file_path w = (Ok b, w')
    /\ write_protected w' = write_protected w
    /\ (exists msgs, stdout w' = stdout w ++ msgs)
    /\ (forall p, p <> file_path -> files w' !! p = files w !! p)
    /\ (b = false -> files w' = files w).
Proof.
  destruct (fix_url_effect file_path w) as (b & w' & msgs & H & Hwp & Hout & Hfr & Hf).
  exists b, w'. eauto 8.
Qed.

(** X19: when the YAML reader gives back the record the writer wrote, a
    second call of [fix_code_url] on a file it fixed finds the URL valid:
    it returns [False] and changes no file. *)
Theorem fix_code_url_twice file_path text d w :
  files w !! file_path = Some text ->
  yaml_safe_load text = Ok (PDict d) ->
  code_url_replaced d = true ->
  file_path ∉ write_protected w ->
  yaml_safe_load (yaml_dump (PDict (Py.set d "code_url" (PStr fallback_url))))
  = Ok (PDict (Py.set d "code_url" (PStr fallback_url))) ->
  fst (fix_url file_path w) = Ok true
  /\ fix_url file_path (snd (fix_url file_path w))
     = (Ok false, emit (snd (fix_url file_path w)) [MsgCodeUrlValid file_path]).
Proof.
  intros Hfile Hload Hr Hwr Hround.
  rewrite (fix_url_cases file_path w), Hfile, Hload, Hr.
  destruct (decide (_ ∈ _)); [contradiction |]. cbn [fst snd].
  split; [reflexivity |].
  rewrite fix_url_cases. cbn [written emit files].
  rewrite lookup_insert_eq, Hround.
  unfold code_url_replaced, Py.get_or. rewrite lookup_set. reflexivity.
Qed.

(** X20: the loop of [batch_fix_code_urls] never raises; the count it
    returns grows by at most one per file; it changes no file but the
    files it goes through. *)
Theorem code_url_loop_total (yaml_files : list Path) :
  forall fixed_count w,
  exists fixed_count' w',
    url_loop yaml_files fixed_count w = (Ok fixed_count', w')
    /\ (fixed_count <= fixed_count' <= fixed_count + length yaml_files)%nat
    /\ write_protected w' = write_protected w
    /\ (forall p, (forall x, In x yaml_files -> path_str x <> p) ->
                  files w' !! p = files w !! p).
Proof.
  induction yaml_files as [|file_path rest IH]; intros fixed_count w.
  - exists fixed_count, w. cbn. repeat split; try lia; reflexivity.
  - cbn [code_url_loop]. unfold mbind at 1. unfold io_bind at 1.
    destruct (fix_url_effect (path_str file_path) w)
      as (b & w1 & _ & -> & Hwp & _ & Hframe & _).
    destruct (IH (if b then S fixed_count else fixed_count) w1)
      as (n & w2 & -> & Hn & Hwp2 & Hframe2).
    exists n, w2. split; [reflexivity |].
    split; [destruct b; cbn [length]; lia |].
    split; [congruence |].
    intros p Hp. rewrite Hframe2 by (intros; apply Hp; now right).
    apply Hframe. intros ->. apply (Hp file_path); [now left | reflexivity].
Qed.

End ScriptExtras.

(** ** The further properties on the example world *)

Lemma fix_record_accepts_witness :
  exists fixed_data,
    fix_record
      (PDict [(KStr "claims",
               PList [PDict [(KStr "claim", PStr "X")];
                      PDict [(KStr "instruction", PDict [(KStr "step", PNone)])]])])
    = Ok fixed_data.
Proof.
  apply (proj2 (fix_record_accepts
                  (PDict [(KStr "claims",
                           PList [PDict [(KStr "claim", PStr "X")];
                                  PDict [(KStr "instruction",
                                          PDict [(KStr "step", PNone)])]])]))).
  reflexivity.
Defined.

Lemma fix_file_frame_witness :
  write_protected
    (snd (fix_submission_file example_yaml example_json Py.repr
            "subs/a.yaml" (Some "out/a.yaml") example_world))
  = write_protected example_world
  /\ (exists msgs,
        stdout (snd (fix_submission_file example_yaml example_json Py.repr
                       "subs/a.yaml" (Some "out/a.yaml") example_world))
        = stdout example_world ++ msgs)
  /\ (forall p, p <> "out/a.yaml" ->
        files (snd (fix_submission_file example_yaml example_json Py.repr
                      "subs/a.yaml" (Some "out/a.yaml") example_world)) !! p
        = files example_world !! p)
  /\ (true = false ->
      files (snd (fix_submission_file example_yaml example_json Py.repr
                    "subs/a.yaml" (Some "out/a.yaml") example_world))
      = files example_world).
Proof.
  apply (fix_file_frame example_yaml example_json Py.repr
           "subs/a.yaml" (Some "out/a.yaml") example_world true).
  reflexivity.
Defined.

Lemma fix_file_true_iff_witness :
  exists w',
    fix_submission_file example_yaml example_json Py.repr
      "subs/a.yaml" None example_world = (Ok true, w').
Proof.
  apply (proj2 (fix_file_true_iff example_yaml example_json Py.repr
                  "subs/a.yaml" None example_world)).
  eexists _, _. split; [reflexivity |]. split; [reflexivity |].
  split; [| apply not_elem_of_empty].
  intros f [<- | [<- | [<- | []]]]; reflexivity.
Defined.

Lemma url_warnings_exact_witness :
  fix_submission_file example_yaml example_json Py.repr
    "subs/ftp.yaml" (Some "out/ftp.yaml") example_world
  = (Ok true,
     World (<["out/ftp.yaml" :=
               Py.repr (PDict (fixed_template
                                 [(KStr "paper_pdf", PStr "ftp://host/paper.pdf")] []))]>
              (files example_world))
       (write_protected example_world)
       (stdout example_world
        ++ List.map MsgUrlWarning
             (List.filter
                (warned (fixed_template
                           [(KStr "paper_pdf", PStr "ftp://host/paper.pdf")] []))
                url_fields)
        ++ [MsgFixed "subs/ftp.yaml"])).
Proof.
  apply (url_warnings_exact example_yaml example_json Py.repr
           "subs/ftp.yaml" (Some "out/ftp.yaml") example_world
           (PDict [(KStr "paper_pdf", PStr "ftp://host/paper.pdf")])).
  - reflexivity.
  - reflexivity.
  - intros f [<- | [<- | [<- | []]]]; reflexivity.
  - apply not_elem_of_empty.
Defined.

Lemma load_errors_reported_witness :
  fix_submission_file example_yaml example_json Py.repr
    "subs/b c.yaml" None example_world
  = (Ok false, emit example_world [MsgErrorFixing "subs/b c.yaml" ValueError]).
Proof.
  apply (proj2 (proj2 (load_errors_reported example_yaml example_json Py.repr
                         "subs/b c.yaml" None example_world))
           "not a record" ValueError);
    reflexivity.
Defined.

Lemma batch_frame_witness :
  files (snd (batch_fix_submissions example_yaml example_json Py.repr
                (listing_glob example_listing) never_denied
                "subs" (Some "out/") example_world))
    !! "subs/a.yaml"
  = files example_world !! "subs/a.yaml".
Proof.
  apply (batch_frame example_yaml example_json Py.repr
           (listing_glob example_listing) never_denied
           "subs" (Some "out/") example_world "subs/a.yaml").
  intros x [<- | [<- | []]]; discriminate.
Defined.

Lemma refused_name_file_kept_witness :
  files (snd (batch_loop example_yaml example_json Py.repr
                [joinpath "subs" "a.yaml"; joinpath "subs" "b c.yaml"]
                None "subs" 0 0 example_world)) !! "subs/b c.yaml"
  = files example_world !! "subs/b c.yaml".
Proof.
  apply (refused_name_file_kept example_yaml example_json Py.repr
           [joinpath "subs" "a.yaml"; joinpath "subs" "b c.yaml"]
           (joinpath "subs" "b c.yaml") "b_c.yaml").
  - intros x [<- | [<- | []]]; reflexivity.
  - reflexivity.
  - discriminate.
Defined.

Lemma fix_code_url_true_iff_witness :
  exists w', fix_code_url example_yaml Py.repr "subs/blank.yaml" example_world
             = (Ok true, w').
Proof.
  apply (proj2 (fix_code_url_true_iff example_yaml Py.repr
                  "subs/blank.yaml" example_world)).
  exists "blank url", [(KStr "username", PStr "ada"); (KStr "code_url", PStr "  ")].
  split; [reflexivity |]. split; [reflexivity |]. split; [reflexivity |].
  split; [apply not_elem_of_empty | reflexivity].
Defined.

Lemma fix_code_url_failures_witness :
  fix_code_url example_yaml Py.repr "subs/mixed.yaml" example_world
  = (Ok false, emit example_world [MsgCodeUrlError "subs/mixed.yaml" AttributeError])
  /\ fix_code_url example_yaml Py.repr "subs/b c.yaml" example_world
     = (Ok false, emit example_world [MsgCodeUrlError "subs/b c.yaml" YAMLError]).
Proof.
  split.
  - apply (proj1 (proj2 (proj2 (proj2 (fix_code_url_failures example_yaml Py.repr
                                         "subs/mixed.yaml" example_world))))
             "ftp and number"
             [ (KStr "paper_pdf", PStr "ftp://host/paper.pdf");
               (KStr "code_url", PInt 123) ]
             (PInt 123));
      reflexivity.
  - apply (proj1 (proj2 (fix_code_url_failures example_yaml Py.repr
                           "subs/b c.yaml" example_world))
             "not a record" YAMLError);
      reflexivity.
Defined.

Lemma fix_code_url_twice_witness :
  fst (fix_code_url example_yaml_back Py.repr "subs/blank.yaml" example_world) = Ok true
  /\ fix_code_url example_yaml_back Py.repr "subs/blank.yaml"
       (snd (fix_code_url example_yaml_back Py.repr "subs/blank.yaml" example_world))
     = (Ok false,
        emit (snd (fix_code_url example_yaml_back Py.repr "subs/blank.yaml"
                     example_world))
          [MsgCodeUrlValid "subs/blank.yaml"]).
Proof.
  apply (fix_code_url_twice example_yaml_back Py.repr
           "subs/blank.yaml" "blank url"
           [(KStr "username", PStr "ada"); (KStr "code_url", PStr "  ")]
           example_world).
  - reflexivity.
  - reflexivity.
  - reflexivity.
  - apply not_elem_of_empty.
  - reflexivity.
Defined.

Lemma code_url_loop_total_witness :
  exists fixed_count' w',
    code_url_loop example_yaml Py.repr
      [joinpath "subs" "blank.yaml"; joinpath "subs" "own.yaml"] 0 example_world
    = (Ok fixed_count', w')
    /\ (0 <= fixed_count' <= 0 + 2)%nat
    /\ write_protected w' = write_protected example_world
    /\ (forall p,
          (forall x, In x [joinpath "subs" "blank.yaml"; joinpath "subs" "own.yaml"] ->
                     path_str x <> p) ->
          files w' !! p = files example_world !! p).
Proof.
  apply (code_url_loop_total example_yaml Py.repr
           [joinpath "subs" "blank.yaml"; joinpath "subs" "own.yaml"] 0%nat
           example_world).
Defined.

(** The count of the loop on the two files: one fixed, one already valid. *)
Example code_url_loop_example :
  fst (code_url_loop example_yaml Py.repr
         [joinpath "subs" "blank.yaml"; joinpath "subs" "own.yaml"] 0 example_world)
  = Ok 1%nat.
Proof. vm_compute. reflexivity. Qed.
